(** * Rank query of app.py: normalisation, rank query, text rendering, handler

    A shallow embedding of [src/app.py].  Python [str] values are lists of
    Unicode code points ([text]); the Unicode tables used by [str.isdecimal],
    [str.isdigit], [str.isspace], [re]'s [\d] and [int()] are written out
    (Unicode 14.0, the database of CPython 3.11). *)

From Stdlib Require Import String Ascii ZArith List Lia Bool Sorted.
Import ListNotations.
Open Scope Z_scope.

(** ** Python text primitives *)
Module Text.

Definition text := list Z.

(** Literal helper: an ASCII [string] as its code points. *)
Fixpoint of_ascii (s : string) : text :=
  match s with
  | EmptyString => []
  | String a s' => Z.of_nat (nat_of_ascii a) :: of_ascii s'
  end.

(** First code point of every run of ten Unicode decimal digits (category Nd);
    the run starting at [s] has digit values 0..9 at [s], ..., [s+9]. *)
Definition decimal_starts : list Z :=
  [0x30; 0x660; 0x6f0; 0x7c0; 0x966; 0x9e6; 0xa66; 0xae6; 0xb66; 0xbe6;
   0xc66; 0xce6; 0xd66; 0xde6; 0xe50; 0xed0; 0xf20; 0x1040; 0x1090; 0x17e0;
   0x1810; 0x1946; 0x19d0; 0x1a80; 0x1a90; 0x1b50; 0x1bb0; 0x1c40; 0x1c50;
   0xa620; 0xa8d0; 0xa900; 0xa9d0; 0xa9f0; 0xaa50; 0xabf0; 0xff10; 0x104a0;
   0x10d30; 0x11066; 0x110f0; 0x11136; 0x111d0; 0x112f0; 0x11450; 0x114d0;
   0x11650; 0x116c0; 0x11730; 0x118e0; 0x11950; 0x11c50; 0x11d50; 0x11da0;
   0x16a60; 0x16ac0; 0x16b50; 0x1d7ce; 0x1d7d8; 0x1d7e2; 0x1d7ec; 0x1d7f6;
   0x1e140; 0x1e2f0; 0x1e950; 0x1fbf0].

Fixpoint decimal_in (starts : list Z) (c : Z) : option Z :=
  match starts with
  | [] => None
  | s :: r => if (s <=? c) && (c <? s + 10) then Some (c - s) else decimal_in r c
  end.

(** [unicodedata.decimal(c)], defined exactly for [str.isdecimal]. *)
Definition decimal_value (c : Z) : option Z := decimal_in decimal_starts c.

Definition is_decimal (c : Z) : bool :=
  match decimal_value c with Some _ => true | None => false end.

Definition in_ranges (rs : list (Z * Z)) (c : Z) : bool :=
  existsb (fun r => (fst r <=? c) && (c <=? snd r)) rs.

(** [str.isspace] on one code point. *)
Definition space_ranges : list (Z * Z) :=
  [(0x9, 0xd); (0x1c, 0x20); (0x85, 0x85); (0xa0, 0xa0); (0x1680, 0x1680);
   (0x2000, 0x200a); (0x2028, 0x2029); (0x202f, 0x202f); (0x205f, 0x205f);
   (0x3000, 0x3000)].

Definition is_space (c : Z) : bool := in_ranges space_ranges c.

(** Code points with [str.isdigit] but not [str.isdecimal]. *)
Definition digit_only_ranges : list (Z * Z) :=
  [(0xb2, 0xb3); (0xb9, 0xb9); (0x1369, 0x1371); (0x19da, 0x19da);
   (0x2070, 0x2070); (0x2074, 0x2079); (0x2080, 0x2089); (0x2460, 0x2468);
   (0x2474, 0x247c); (0x2488, 0x2490); (0x24ea, 0x24ea); (0x24f5, 0x24fd);
   (0x24ff, 0x24ff); (0x2776, 0x277e); (0x2780, 0x2788); (0x278a, 0x2792);
   (0x10a40, 0x10a43); (0x10e60, 0x10e68); (0x11052, 0x1105a);
   (0x1f100, 0x1f10a)].

Definition is_digit_char (c : Z) : bool :=
  is_decimal c || in_ranges digit_only_ranges c.

(** [s.isdigit()]: non-empty and every character a digit. *)
Definition py_isdigit (s : text) : bool :=
  match s with [] => false | _ => forallb is_digit_char s end.

Fixpoint starts_with (p s : text) : bool :=
  match p, s with
  | [], _ => true
  | a :: p', b :: s' => (a =? b) && starts_with p' s'
  | _ :: _, [] => false
  end.

Fixpoint remove_go (fuel : nat) (pat s : text) : text :=
  match fuel with
  | O => s
  | S f =>
      match s with
      | [] => []
      | c :: s' =>
          if starts_with pat s then remove_go f pat (skipn (length pat) s)
          else c :: remove_go f pat s'
      end
  end.

(** [s.replace(pat, "")]: left-to-right scan deleting non-overlapping
    occurrences of [pat]. *)
Definition py_remove (pat s : text) : text := remove_go (length s) pat s.

Fixpoint drop_space (s : text) : text :=
  match s with
  | c :: r => if is_space c then drop_space r else s
  | [] => []
  end.

(** [s.strip()]: removes leading and trailing [str.isspace] characters. *)
Definition py_strip (s : text) : text := rev (drop_space (rev (drop_space s))).

(** [s.zfill(width)]. *)
Definition py_zfill (width : nat) (s : text) : text :=
  if (width <=? length s)%nat then s
  else
    let pad := repeat 48 (width - length s) in
    match s with
    | c :: r => if (c =? 43) || (c =? 45) then c :: pad ++ r else pad ++ s
    | [] => pad
    end.

(** [re.match(r'^\d{1,6}$', s)] on a [str]: [\d] is [str.isdecimal], and [$]
    also matches just before a newline that ends the string. *)
Definition digits16 (s : text) : bool :=
  forallb is_decimal s && (1 <=? length s)%nat && (length s <=? 6)%nat.

Definition re_match_digits16 (s : text) : bool :=
  digits16 s ||
  (match rev s with
   | c :: r => (c =? 10) && digits16 (rev r)
   | [] => false
   end).

(** Characters of [int()]'s first pass
    ([_PyUnicode_TransformDecimalAndSpaceToASCII]): ASCII is kept, other
    white space becomes a space, other decimals their ASCII digit, anything
    else a character that the parser refuses. *)
Definition to_ascii_char (c : Z) : Z :=
  if c <? 128 then c
  else if is_space c then 32
  else match decimal_value c with Some d => 48 + d | None => 63 end.

(** C [isspace] on ASCII, used by [PyLong_FromString]. *)
Definition c_space (c : Z) : bool := ((9 <=? c) && (c <=? 13)) || (c =? 32).

Fixpoint drop_c_space (s : text) : text :=
  match s with
  | c :: r => if c_space c then drop_c_space r else s
  | [] => []
  end.

(** Digits of [digit ('_'? digit)*], as digit values. *)
Fixpoint underscore_digits (after_digit : bool) (s : text) : option (list Z) :=
  match s with
  | [] => if after_digit then Some [] else None
  | c :: r =>
      if (48 <=? c) && (c <=? 57) then
        match underscore_digits true r with
        | Some ds => Some ((c - 48) :: ds)
        | None => None
        end
      else if (c =? 95) && after_digit then underscore_digits false r
      else None
  end.

Definition digits_value (ds : list Z) : Z := fold_left (fun acc d => acc * 10 + d) ds 0.

(** [sys.get_int_max_str_digits()] default of CPython 3.11. *)
Definition max_str_digits : nat := 4300.

(** [int(s)] for a [str] [s]; [None] is the [ValueError]. *)
Definition py_int (s : text) : option Z :=
  let a := map to_ascii_char s in
  let core := rev (drop_c_space (rev (drop_c_space a))) in
  let '(sign, body) :=
    match core with
    | 43 :: r => (1, r)
    | 45 :: r => (-1, r)
    | _ => (1, core)
    end in
  match underscore_digits false body with
  | Some ds =>
      if (max_str_digits <? length ds)%nat then None
      else Some (sign * digits_value ds)
  | None => None
  end.

Fixpoint pos_repr_go (fuel : nat) (n : Z) (acc : text) : text :=
  match fuel with
  | O => acc
  | S f =>
      let acc' := (48 + n mod 10) :: acc in
      if n <? 10 then acc' else pos_repr_go f (n / 10) acc'
  end.

(** [str(n)] for a Python [int]. *)
Definition z_repr (n : Z) : text :=
  if n <? 0 then 45 :: pos_repr_go (Z.to_nat (Z.log2 (- n)) + 1) (- n) []
  else pos_repr_go (Z.to_nat (Z.log2 n) + 1) n [].

End Text.
Import Text.

(** ** Normalizer: [process_header], [process_cell] *)
Module Normalizer.

(** ["00:00:00"] *)
Definition time_suffix : text := of_ascii "00:00:00".

(** [process_header(header)]. *)
Definition process_header (header : list text) : list text :=
  map (fun col => py_strip (py_remove time_suffix col)) header.

(** The three [replace] calls of [process_cell], in source order. *)
Definition strip_suffixes (value : text) : text :=
  py_remove (of_ascii ".SZ") (py_remove (of_ascii ".SH") (py_remove (of_ascii ".csv") value)).

(** [process_cell(value)], on the text [str(value)]. *)
Definition process_cell (value : text) : text :=
  let value := strip_suffixes value in
  if re_match_digits16 value then py_zfill 6 value else value.

End Normalizer.
Import Normalizer.

(** ** A pandas frame and [query_stock_rank] *)
Module Rank.

(** Python-level outcome: an exception or a returned value. *)
Inductive exn := ValueError | KeyError | IndexError | TypeError | AttributeError | OSError.

Inductive outcome (A : Type) :=
| Raise (e : exn)
| Return (a : A).
Arguments Raise {A} e.
Arguments Return {A} a.

Definition bind {A B} (m : outcome A) (k : A -> outcome B) : outcome B :=
  match m with Raise e => Raise e | Return a => k a end.

Notation "x <- m ;; k" := (bind m (fun x => k)) (at level 61, m at next level, right associativity).

(** A numeric cell of the frame read by [pd.read_csv]; [NaN] is a missing value. *)
Inductive cell := Num (z : Z) | NaN.

(** A frame: its columns in order, each a label and its values top to bottom. *)
Definition table := list (text * list cell).

(** [ranks]: a dict from column label to rank, in insertion order. *)
Definition ranks := list (text * Z).

Definition labels (df : table) : list text := map fst df.

Fixpoint text_eqb (a b : text) : bool :=
  match a, b with
  | [], [] => true
  | x :: a', y :: b' => (x =? y) && text_eqb a' b'
  | _, _ => false
  end.

(** [df[label]]: the column with that label ([KeyError] if absent). *)
Fixpoint column (df : table) (label : text) : outcome (list cell) :=
  match df with
  | [] => Raise KeyError
  | (l, c) :: r => if text_eqb l label then Return c else column r label
  end.

(** [==] of a cell with a Python [int]; [NaN] equals nothing. *)
Definition cell_eq_int (x : cell) (z : Z) : bool :=
  match x with Num y => y =? z | NaN => false end.

(** [==] of two cells. *)
Definition cell_eq (x y : cell) : bool :=
  match y with Num z => cell_eq_int x z | NaN => false end.

(** Position of the first element satisfying [p]. *)
Fixpoint first_index {A} (p : A -> bool) (l : list A) : option nat :=
  match l with
  | [] => None
  | x :: r => if p x then Some O else option_map S (first_index p r)
  end.

Fixpoint insert_desc (z : Z) (l : list Z) : list Z :=
  match l with
  | [] => [z]
  | y :: r => if y <? z then z :: l else y :: insert_desc z r
  end.

Fixpoint nums (col : list cell) : list Z :=
  match col with
  | [] => []
  | Num z :: r => z :: nums r
  | NaN :: r => nums r
  end.

Fixpoint nans (col : list cell) : list cell :=
  match col with
  | [] => []
  | Num _ :: r => nans r
  | NaN :: r => NaN :: nans r
  end.

(** [col.sort_values(ascending=False).reset_index(drop=True)]: numbers in
    descending order, missing values last ([na_position='last']). *)
Definition sort_desc (col : list cell) : list cell :=
  map Num (fold_right insert_desc [] (nums col)) ++ nans col.

(** Python slice index normalisation for a sequence of length [len]. *)
Definition slice_index (len : Z) (i : Z) : Z :=
  if i <? 0 then Z.max 0 (i + len) else Z.min i len.

(** [xs[start:stop]]. *)
Definition py_slice {A} (xs : list A) (start stop : Z) : list A :=
  let len := Z.of_nat (length xs) in
  let a := slice_index len start in
  let b := slice_index len stop in
  firstn (Z.to_nat (b - a)) (skipn (Z.to_nat a) xs).

(** [d[key] = v] on an insertion-ordered dict. *)
Fixpoint dict_set (d : ranks) (key : text) (v : Z) : ranks :=
  match d with
  | [] => [(key, v)]
  | (k, w) :: r => if text_eqb k key then (k, v) :: r else (k, w) :: dict_set r key v
  end.

(** ["new_predict"] *)
Definition id_label : text := of_ascii "new_predict".

(** "股票代码必须是六位数字" *)
Definition msg_invalid_code : text :=
  [0x80a1; 0x7968; 0x4ee3; 0x7801; 0x5fc5; 0x987b; 0x662f; 0x516d; 0x4f4d; 0x6570; 0x5b57].

(** "股票代码未找到" *)
Definition msg_not_found : text := [0x80a1; 0x7968; 0x4ee3; 0x7801; 0x672a; 0x627e; 0x5230].

(** [f"查询天数超过最大天数 {max_days}"] *)
Definition msg_exceeds (max_days : Z) : text :=
  [0x67e5; 0x8be2; 0x5929; 0x6570; 0x8d85; 0x8fc7; 0x6700; 0x5927; 0x5929; 0x6570; 0x20]
  ++ z_repr max_days.

(** [stock_row[column].values[0]]: the column's value at the first matching row. *)
Definition nth_value (col : list cell) (i : nat) : outcome cell :=
  match nth_error col i with Some v => Return v | None => Raise IndexError end.

(** One iteration of the loop over [recent_columns]. *)
Definition rank_step (df : table) (row : nat) (acc : ranks) (label : text) : outcome ranks :=
  col <- column df label ;;
  v <- nth_value col row ;;
  match first_index (fun x => cell_eq x v) (sort_desc col) with
  | Some k => Return (dict_set acc label (Z.of_nat k + 1))
  | None => Raise IndexError
  end.

Fixpoint rank_loop (df : table) (row : nat) (acc : ranks) (cols : list text) : outcome ranks :=
  match cols with
  | [] => Return acc
  | c :: r => acc' <- rank_step df row acc c ;; rank_loop df row acc' r
  end.

(** [query_stock_rank(df, stock_code, n_days)]. *)
Definition query_stock_rank (df : table) (stock_code : text) (n_days : Z)
  : outcome (option ranks * option text) :=
  match py_int stock_code with
  | None => Return (None, Some msg_invalid_code)
  | Some code =>
      idc <- column df id_label ;;
      match first_index (fun x => cell_eq_int x code) idc with
      | None => Return (None, Some msg_not_found)
      | Some row =>
          let max_days := Z.of_nat (length df) - 1 in
          if max_days <? n_days then Return (None, Some (msg_exceeds max_days))
          else
            let recent_columns := py_slice (labels df) (- n_days - 1) (-1) in
            r <- rank_loop df row [] recent_columns ;;
            Return (Some r, None)
      end
  end.

End Rank.
Import Rank.

(** ** Presenter: [generate_rank_text] *)
Module Presenter.

(** ["日期\t排名\n"] *)
Definition rank_text_header : text := [0x65e5; 0x671f; 9; 0x6392; 0x540d; 10].

(** [text += f"{date}\t{rank}\n"] *)
Definition rank_line (text0 : text) (entry : text * Z) : text :=
  text0 ++ fst entry ++ [9] ++ z_repr (snd entry) ++ [10].

(** [generate_rank_text(ranks)]. *)
Definition generate_rank_text (r : ranks) : text := fold_left rank_line r rank_text_header.

End Presenter.
Import Presenter.

(** ** Request handler: the POST branch of [index] *)
Module Handler.

(** [request.form.get(key)]: the first value under [key]. *)
Fixpoint form_get (form : list (text * text)) (key : text) : option text :=
  match form with
  | [] => None
  | (k, v) :: r => if text_eqb k key then Some v else form_get r key
  end.

(** The file system as the handler sees it: what [process_table(FILE_PATH)]
    returns (a path or [None]) and what [load_data] then yields. *)
Record world := { process_result : option text; load_result : outcome table }.

(** File operations, in the order the handler performs them. *)
Inductive event := ProcessTable | LoadData.

(** Rendered responses; [ResultPage] carries the chart as the rank series
    [plot_rank_trend] draws (a pure function of it). *)
Inductive response :=
| IndexPage (error_message : option text) (max_days : option Z)
| PlainText (body : text)
| ResultPage (stock_code : text) (chart : ranks) (rank_text : text).

(** "文件处理失败，请检查文件路径。" *)
Definition msg_file_failed : text :=
  [0x6587; 0x4ef6; 0x5904; 0x7406; 0x5931; 0x8d25; 0xff0c; 0x8bf7; 0x68c0;
   0x67e5; 0x6587; 0x4ef6; 0x8def; 0x5f84; 0x3002].

(** [int(request.form.get("n_days"))]: [int(None)] is a [TypeError]. *)
Definition int_of_field (v : option text) : outcome Z :=
  match v with
  | None => Raise TypeError
  | Some s => match py_int s with Some n => Return n | None => Raise ValueError end
  end.

(** [index()] on a POST request: the file events it performs, and its
    response or exception. *)
Definition index_post (form : list (text * text)) (w : world) : list event * outcome response :=
  let stock_code := form_get form (of_ascii "stock_code") in
  match int_of_field (form_get form (of_ascii "n_days")) with
  | Raise e => ([], Raise e)
  | Return n_days =>
      match stock_code with
      | None => ([], Raise AttributeError)
      | Some code =>
          if negb (py_isdigit code && (length code =? 6)%nat) then
            ([], Return (IndexPage (Some msg_invalid_code) None))
          else
            match process_result w with
            | None => ([ProcessTable], Return (PlainText msg_file_failed))
            | Some _ =>
                let ev := [ProcessTable; LoadData] in
                match load_result w with
                | Raise e => (ev, Raise e)
                | Return df =>
                    match query_stock_rank df code n_days with
                    | Raise e => (ev, Raise e)
                    | Return (result, error_message) =>
                        match error_message with
                        | Some ((_ :: _) as m) =>
                            (ev, Return (IndexPage (Some m) (Some (Z.of_nat (length df) - 1))))
                        | _ =>
                            match result with
                            | Some r => (ev, Return (ResultPage code r (generate_rank_text r)))
                            | None => (ev, Raise AttributeError)
                            end
                        end
                    end
                end
            end
      end
  end.

End Handler.
Import Handler.

(** ** Vocabulary of the properties *)
Module Vocab.

(** The rank entry [(label, k)] is what one loop iteration of
    [query_stock_rank] computes for [label] at target row [row]. *)
Definition rank_entry (df : table) (row : nat) (label : text) (k : Z) : Prop :=
  exists col v k0,
    column df label = Return col /\ nth_error col row = Some v /\
    first_index (fun x => cell_eq x v) (sort_desc col) = Some k0 /\
    k = Z.of_nat k0 + 1.

(** Number of values of a column strictly greater than [v]. *)
Definition count_greater (col : list cell) (v : Z) : nat :=
  length (filter (fun y => v <? y) (nums col)).

(** [pat in s] for Python strings. *)
Fixpoint occurs (pat s : text) : bool :=
  match s with
  | [] => starts_with pat []
  | c :: r => starts_with pat (c :: r) || occurs pat r
  end.

Definition has_cell_suffix (s : text) : bool :=
  occurs (of_ascii ".csv") s || occurs (of_ascii ".SH") s || occurs (of_ascii ".SZ") s.

Definition ascii_digit (c : Z) : bool := (48 <=? c) && (c <=? 57).

Definition digit_values (l : text) : list Z := map (fun c => c - 48) l.

End Vocab.
Import Vocab.

(** ** Derived file path of [process_table] *)
Module Paths.

Fixpoint rfind_go (c : Z) (i : Z) (p : text) (best : Z) : Z :=
  match p with
  | [] => best
  | x :: r => rfind_go c (i + 1) r (if x =? c then i else best)
  end.

(** [p.rfind(c)] for a one-character [c]: last index, or [-1]. *)
Definition rfind (c : Z) (p : text) : Z := rfind_go c 0 p (-1).

(** [genericpath._splitext(p, sep, altsep, '.')], the body of
    [os.path.splitext] ([posixpath]: [sep = '/'], no [altsep];
    [ntpath]: [sep = '\\'], [altsep = '/']). *)
Definition py_splitext (sep : Z) (altsep : option Z) (p : text) : text * text :=
  let s1 := rfind sep p in
  let sepIndex := match altsep with Some a => Z.max s1 (rfind a p) | None => s1 end in
  let dotIndex := rfind 46 p in
  if sepIndex <? dotIndex then
    if existsb (fun c => negb (c =? 46))
         (firstn (Z.to_nat (dotIndex - (sepIndex + 1))) (skipn (Z.to_nat (sepIndex + 1)) p))
    then (firstn (Z.to_nat dotIndex) p, skipn (Z.to_nat dotIndex) p)
    else (p, [])
  else (p, []).

(** [os.path.splitext(FILE_PATH)[0] + "_processed.csv"] in [process_table]. *)
Definition processed_path (sep : Z) (altsep : option Z) (file_path : text) : text :=
  fst (py_splitext sep altsep file_path) ++ of_ascii "_processed.csv".

End Paths.
Import Paths.

(** ** Concrete inputs *)
Module Samples.

(** The end-to-end scenario of the spec: identifier [1], columns [d1], [d2]. *)
Definition demo : table :=
  [(of_ascii "d1", [Num 10; Num 3; Num 7]);
   (of_ascii "d2", [Num 5; Num 9; Num 1]);
   (id_label, [Num 1; Num 2; Num 3])].

Definition demo_ranks : ranks := [(of_ascii "d1", 1); (of_ascii "d2", 2)].

(** A file system whose source file cannot be processed. *)
Definition broken_world : world := {| process_result := None; load_result := Raise OSError |}.


Definition form_bad_days : list (text * text) :=
  [(of_ascii "stock_code", of_ascii "abc"); (of_ascii "n_days", of_ascii "two")].

Definition demo_nan : table :=
  [(of_ascii "d1", [Num 10; Num 3]); (of_ascii "d2", [NaN; Num 9]); (id_label, [Num 1; Num 2])].

(** A well-formed request on the scenario frame. *)
Definition form_demo : list (text * text) :=
  [(of_ascii "stock_code", of_ascii "000001"); (of_ascii "n_days", of_ascii "2")].

Definition world_demo : world := {| process_result := Some (of_ascii "p.csv"); load_result := Return demo |}.

(** Six digit characters for [str.isdigit], the last one the superscript one
    (U+00B9), which is not a decimal digit. *)
Definition code_nondecimal : text := of_ascii "00001" ++ [0xb9].

Definition form_nondecimal : list (text * text) :=
  [(of_ascii "stock_code", code_nondecimal); (of_ascii "n_days", of_ascii "2")].

End Samples.
Import Samples.

(** * Properties *)

Example t1 : py_int (of_ascii " +1_2 ") = Some 12. Proof. reflexivity. Qed.
Example t2 : py_int [0x3000; 0x31; 0x3000] = Some 1. Proof. reflexivity. Qed.
Example t3 : py_int (of_ascii "1__2") = None. Proof. reflexivity. Qed.
Example t4 : z_repr 1203 = of_ascii "1203". Proof. reflexivity. Qed.
Example t5 : process_cell (of_ascii "1.SH") = of_ascii "000001". Proof. reflexivity. Qed.
Example t6 : process_cell (of_ascii "1.S.SHH") = of_ascii "1.SH". Proof. reflexivity. Qed.
Example t7 : process_header [of_ascii "00:000:00:000:00"] = [of_ascii "00:00:00"]. Proof. reflexivity. Qed.

Example t8 : query_stock_rank demo (of_ascii "000001") 2
  = Return (Some [(of_ascii "d1", 1); (of_ascii "d2", 2)], None).
Proof. reflexivity. Qed.
Example t9 : query_stock_rank demo (of_ascii "000001") 0 = Return (Some [], None).
Proof. reflexivity. Qed.
Example t10 : query_stock_rank demo (of_ascii "000001") 3 = Return (None, Some (msg_exceeds 2)).
Proof. reflexivity. Qed.

(** ** General lemmas *)

Lemma text_eqb_true : forall a b, text_eqb a b = true -> a = b.
Proof.
  induction a as [|x a IH]; destruct b as [|y b]; simpl; try discriminate; auto.
  intros H; apply andb_prop in H as [H1 H2].
  apply Z.eqb_eq in H1; subst; f_equal; auto.
Qed.

Lemma text_eqb_refl : forall a, text_eqb a a = true.
Proof. induction a; simpl; auto. rewrite Z.eqb_refl; auto. Qed.

Lemma rank_lines_app : forall r acc,
  fold_left rank_line r acc
  = acc ++ concat (map (fun e => fst e ++ [9] ++ z_repr (snd e) ++ [10]) r).
Proof.
  induction r as [|e r IH]; intros acc; simpl.
  - now rewrite app_nil_r.
  - rewrite IH; unfold rank_line; simpl; repeat (rewrite <- app_assoc; simpl); reflexivity.
Qed.

(** ** C8 *)

(** C8: [generate_rank_text] is the header ["日期\t排名\n"] followed by one
    ["label\trank\n"] line per entry, in the series' order; for
    [{d1: 1, d2: 2}] it is exactly ["日期\t排名\nd1\t1\nd2\t2\n"]. *)
Theorem C8_generate_rank_text :
  (forall r : ranks,
     generate_rank_text r
     = rank_text_header ++ concat (map (fun e => fst e ++ [9] ++ z_repr (snd e) ++ [10]) r))
  /\ generate_rank_text [(of_ascii "d1", 1); (of_ascii "d2", 2)]
     = [0x65e5; 0x671f; 9; 0x6392; 0x540d; 10;
        100; 49; 9; 49; 10;
        100; 50; 9; 50; 10].
Proof.
  split.
  - intros r; apply rank_lines_app.
  - reflexivity.
Qed.

(** ** C10 *)

(** C10: on a POST request whose [n_days] field is missing or is not the
    text of an integer, [index] raises while converting it, before it looks
    at [stock_code] and before any file operation, whatever the file system
    holds. *)
Theorem C10_n_days_raises_first :
  forall (form : list (text * text)) (w : world),
    (form_get form (of_ascii "n_days") = None
     \/ exists s, form_get form (of_ascii "n_days") = Some s /\ py_int s = None) ->
    index_post form w = ([], Raise TypeError) \/ index_post form w = ([], Raise ValueError).
Proof.
  intros form w [H | [s [H1 H2]]]; unfold index_post, int_of_field.
  - rewrite H; auto.
  - rewrite H1, H2; auto.
Qed.

(** ** C3 *)

Lemma existsb_first_index : forall {A} (p : A -> bool) l,
  existsb p l = true -> exists k, first_index p l = Some k.
Proof.
  induction l as [|x l IH]; simpl; intros H; [discriminate|].
  destruct (p x); simpl in *; [now exists O|].
  destruct (IH H) as [k Hk]; rewrite Hk; now exists (S k).
Qed.

(** C3: when the code parses and matches a row, a window [n_days] larger
    than the column count minus 1 gives no result and the "exceeds" message
    carrying [max_days] = column count - 1. *)
Theorem C3_window_exceeds :
  forall df stock_code code idc n_days,
    py_int stock_code = Some code ->
    column df id_label = Return idc ->
    existsb (fun x => cell_eq_int x code) idc = true ->
    Z.of_nat (length df) - 1 < n_days ->
    query_stock_rank df stock_code n_days
    = Return (None, Some (msg_exceeds (Z.of_nat (length df) - 1))).
Proof.
  intros df stock_code code idc n_days Hc Hid Hex Hn.
  destruct (existsb_first_index _ _ Hex) as [row Hrow].
  unfold query_stock_rank; rewrite Hc, Hid; simpl; rewrite Hrow.
  rewrite (proj2 (Z.ltb_lt _ _) Hn).
  reflexivity.
Qed.

(** ** Inversion of [query_stock_rank] *)

Lemma query_stock_rank_some : forall df stock_code n_days r e,
  query_stock_rank df stock_code n_days = Return (Some r, e) ->
  exists code idc row,
    py_int stock_code = Some code /\ column df id_label = Return idc /\
    first_index (fun x => cell_eq_int x code) idc = Some row /\
    n_days <= Z.of_nat (length df) - 1 /\
    rank_loop df row [] (py_slice (labels df) (- n_days - 1) (-1)) = Return r /\ e = None.
Proof.
  intros df stock_code n_days r e H; unfold query_stock_rank in H.
  destruct (py_int stock_code) as [code|]; [|discriminate].
  destruct (column df id_label) as [ex|idc]; simpl in H; [discriminate|].
  destruct (first_index _ idc) as [row|] eqn:Hrow; [|discriminate].
  destruct (Z.of_nat (length df) - 1 <? n_days) eqn:Hlt; [discriminate|].
  apply Z.ltb_ge in Hlt.
  destruct (rank_loop _ _ _ _) as [ex|r'] eqn:Hl; simpl in H; [discriminate|].
  injection H as -> ->.
  exists code, idc, row; repeat split; auto.
Qed.

Lemma rank_step_inv : forall df row acc label acc',
  rank_step df row acc label = Return acc' ->
  exists col v k0,
    column df label = Return col /\ nth_error col row = Some v /\
    first_index (fun x => cell_eq x v) (sort_desc col) = Some k0 /\
    acc' = dict_set acc label (Z.of_nat k0 + 1).
Proof.
  intros df row acc label acc' H; unfold rank_step in H.
  destruct (column df label) as [ex|col]; simpl in H; [discriminate|].
  unfold nth_value in H; destruct (nth_error col row) as [v|] eqn:Hv; simpl in H; [|discriminate].
  destruct (first_index _ _) as [k0|] eqn:Hk; [|discriminate].
  injection H as <-; exists col, v, k0; auto.
Qed.

Lemma dict_set_in : forall d key v l k,
  In (l, k) (dict_set d key v) -> In (l, k) d \/ (l = key /\ k = v).
Proof.
  induction d as [|[k' w] d IH]; simpl; intros key v l k H.
  - destruct H as [H|[]]; injection H as <- <-; auto.
  - destruct (text_eqb k' key) eqn:E; simpl in H.
    + apply text_eqb_true in E; subst.
      destruct H as [H|H]; [injection H as <- <-; auto|auto].
    + destruct H as [H|H]; [auto|].
      destruct (IH _ _ _ _ H); auto.
Qed.

Lemma dict_set_keys : forall d key v,
  ~ In key (map fst d) -> map fst (dict_set d key v) = map fst d ++ [key].
Proof.
  induction d as [|[k' w] d IH]; simpl; intros key v H; auto.
  destruct (text_eqb k' key) eqn:E.
  - apply text_eqb_true in E; subst; tauto.
  - simpl; f_equal; auto.
Qed.

Lemma dict_set_nonempty : forall d key v, dict_set d key v <> [].
Proof.
  destruct d as [|[k' w] d]; simpl; intros; [discriminate|].
  destruct (text_eqb k' key); discriminate.
Qed.

Lemma rank_loop_entries : forall df row cols acc r,
  rank_loop df row acc cols = Return r ->
  (forall l k, In (l, k) acc -> rank_entry df row l k) ->
  forall l k, In (l, k) r -> rank_entry df row l k.
Proof.
  intros df row; induction cols as [|c cols IH]; simpl; intros acc r H Hacc.
  - injection H as <-; auto.
  - destruct (rank_step df row acc c) as [ex|acc'] eqn:Hs; simpl in H; [discriminate|].
    apply (IH acc'); auto.
    destruct (rank_step_inv _ _ _ _ _ Hs) as (col & v & k0 & Hc & Hv & Hk & ->).
    intros l k Hin; destruct (dict_set_in _ _ _ _ _ Hin) as [Hin'|[-> ->]]; auto.
    exists col, v, k0; auto.
Qed.

Lemma rank_loop_keys : forall df row cols acc r,
  rank_loop df row acc cols = Return r ->
  NoDup (map fst acc ++ cols) ->
  map fst r = map fst acc ++ cols.
Proof.
  intros df row; induction cols as [|c cols IH]; simpl; intros acc r H Hnd.
  - injection H as <-; now rewrite app_nil_r.
  - destruct (rank_step df row acc c) as [ex|acc'] eqn:Hs; simpl in H; [discriminate|].
    destruct (rank_step_inv _ _ _ _ _ Hs) as (col & v & k0 & _ & _ & _ & ->).
    assert (Hni : ~ In c (map fst acc)).
    { intros Hin; apply NoDup_remove_2 in Hnd; apply Hnd, in_or_app; auto. }
    assert (Hk : map fst (dict_set acc c (Z.of_nat k0 + 1)) = map fst acc ++ [c])
      by now apply dict_set_keys.
    rewrite (IH _ _ H); rewrite Hk; [now rewrite <- app_assoc|].
    now rewrite <- app_assoc.
Qed.

Lemma rank_loop_nonempty : forall df row cols acc r,
  rank_loop df row acc cols = Return r -> cols <> [] -> r <> [].
Proof.
  intros df row; induction cols as [|c cols IH]; simpl; intros acc r H Hne; [congruence|].
  destruct (rank_step df row acc c) as [ex|acc'] eqn:Hs; simpl in H; [discriminate|].
  destruct (rank_step_inv _ _ _ _ _ Hs) as (col & v & k0 & _ & _ & _ & ->).
  destruct cols as [|c' cols'].
  - simpl in H; injection H as <-; apply dict_set_nonempty.
  - apply (IH _ _ H); discriminate.
Qed.

Lemma py_slice_recent : forall {A} (xs : list A) n,
  0 < n <= Z.of_nat (length xs) - 1 ->
  py_slice xs (- n - 1) (-1) = firstn (Z.to_nat n) (skipn (length xs - 1 - Z.to_nat n) xs).
Proof.
  intros A xs n Hn; unfold py_slice, slice_index.
  rewrite (proj2 (Z.ltb_lt (- n - 1) 0)) by lia.
  rewrite (proj2 (Z.ltb_lt (-1) 0)) by lia.
  rewrite !Z.max_r by lia.
  f_equal; [f_equal; lia|f_equal; lia].
Qed.

(** ** C2 *)

(** C2: for [0 < n_days <= column count - 1], a successful [query_stock_rank]
    returns one entry per column of the [n_days] columns just before the
    rightmost one, in their left-to-right order: exactly [n_days] entries.
    Column labels of a frame read by [pd.read_csv] are distinct. *)
Theorem C2_recent_columns :
  forall df stock_code n_days r,
    0 < n_days <= Z.of_nat (length df) - 1 ->
    NoDup (labels df) ->
    query_stock_rank df stock_code n_days = Return (Some r, None) ->
    map fst r = firstn (Z.to_nat n_days) (skipn (length df - 1 - Z.to_nat n_days) (labels df))
    /\ length r = Z.to_nat n_days.
Proof.
  intros df stock_code n_days r Hn Hnd H.
  destruct (query_stock_rank_some _ _ _ _ _ H) as (code & idc & row & _ & _ & _ & _ & Hl & _).
  assert (Hlen : length (labels df) = length df) by apply length_map.
  rewrite py_slice_recent in Hl by (rewrite Hlen; lia).
  rewrite Hlen in Hl.
  assert (Hnd' : NoDup (firstn (Z.to_nat n_days) (skipn (length df - 1 - Z.to_nat n_days) (labels df)))).
  { rewrite <- (firstn_skipn (length df - 1 - Z.to_nat n_days) (labels df)) in Hnd.
    apply NoDup_app_remove_l in Hnd.
    rewrite <- (firstn_skipn (Z.to_nat n_days) (skipn _ (labels df))) in Hnd.
    now apply NoDup_app_remove_r in Hnd. }
  pose proof (rank_loop_keys _ _ _ _ _ Hl Hnd') as Hk; simpl in Hk.
  split; [exact Hk|].
  rewrite <- (length_map fst r), Hk, length_firstn, length_skipn, Hlen; lia.
Qed.

(** ** C5 *)

(** C5 (amended): whenever [query_stock_rank] returns, exactly one of its two
    components is present: either a rank mapping and no error, the mapping
    being non-empty when [n_days > 0] (it is empty for [n_days = 0]), or no
    result and a non-empty error message. *)
Theorem C5_one_component :
  forall df stock_code n_days res,
    query_stock_rank df stock_code n_days = Return res ->
    (exists r, res = (Some r, None) /\ (0 < n_days -> r <> []) /\ (n_days = 0 -> r = []))
    \/ (exists m, res = (None, Some m) /\ m <> []).
Proof.
  intros df stock_code n_days [[r|] e] H.
  - destruct (query_stock_rank_some _ _ _ _ _ H) as (code & idc & row & _ & _ & _ & Hle & Hl & ->).
    left; exists r; split; auto; split.
    2: { intros ->; unfold py_slice in Hl.
         replace (slice_index _ (- 0 - 1)) with (slice_index (Z.of_nat (length (labels df))) (-1)) in Hl
           by reflexivity.
         rewrite Z.sub_diag in Hl; simpl in Hl; now injection Hl as <-. }
    intros Hn.
    apply (rank_loop_nonempty _ _ _ _ _ Hl).
    assert (Hlen : length (labels df) = length df) by apply length_map.
    rewrite py_slice_recent by (rewrite Hlen; lia).
    intros Habs; apply (f_equal (@length text)) in Habs.
    rewrite length_firstn, length_skipn, Hlen in Habs; simpl in Habs; lia.
  - right; unfold query_stock_rank in H.
    destruct (py_int stock_code) as [code|].
    2: { injection H as <-; eexists; split; [reflexivity|discriminate]. }
    destruct (column df id_label) as [ex|idc]; simpl in H; [discriminate|].
    destruct (first_index _ idc) as [row|].
    2: { injection H as <-; eexists; split; [reflexivity|discriminate]. }
    destruct (_ <? n_days).
    + injection H as <-; eexists; split; [reflexivity|discriminate].
    + destruct (rank_loop _ _ _ _); simpl in H; discriminate.
Qed.

(** A returned empty mapping with no error: the spec's non-empty alternative
    fails for [n_days = 0]. *)
Lemma C5_counterexample :
  exists res, query_stock_rank demo (of_ascii "000001") 0 = Return res
  /\ ~ ((exists r, res = (Some r, None) /\ r <> []) \/ (exists m, res = (None, Some m))).
Proof.
  exists (Some [], None); split; [reflexivity|].
  intros [(r & Hr & Hne)|(m & Hm)]; [injection Hr as <-; auto|discriminate].
Qed.

(** ** C4 *)

(** C4 (code bug): the handler's check [stock_code.isdigit() and
    len(stock_code) == 6] admits six digit characters that are not ASCII
    digits, such as ["00001¹"]: [int()] refuses it, yet [index] runs
    [process_table] (and [load_data]) before [query_stock_rank] reports the
    invalid code; when processing fails, the user gets the file-failure text
    and never the invalid-code message. *)
Theorem C4_nondecimal_code_io :
  py_isdigit code_nondecimal && (length code_nondecimal =? 6)%nat = true
  /\ py_int code_nondecimal = None
  /\ (forall w, fst (index_post form_nondecimal w) <> [])
  /\ index_post form_nondecimal broken_world = ([ProcessTable], Return (PlainText msg_file_failed)).
Proof.
  split; [reflexivity|split; [reflexivity|split; [|reflexivity]]].
  intros [[p|] [e|df]]; cbv; discriminate.
Qed.

(** ** Descending sort *)

Definition desc_sorted : list Z -> Prop := StronglySorted (fun a b => b <= a).

Lemma insert_desc_in : forall z l x, In x (insert_desc z l) <-> z = x \/ In x l.
Proof.
  induction l as [|y l IH]; simpl; intros x; [tauto|].
  destruct (y <? z); simpl; [tauto|].
  rewrite IH; tauto.
Qed.

Lemma insert_desc_sorted : forall z l, desc_sorted l -> desc_sorted (insert_desc z l).
Proof.
  unfold desc_sorted; induction l as [|y l IH]; simpl; intros H.
  - repeat constructor.
  - inversion H as [|? ? Hl Hf]; subst.
    destruct (y <? z) eqn:E.
    + apply Z.ltb_lt in E.
      constructor; [exact H|].
      constructor; [lia|].
      eapply Forall_impl; [|exact Hf]; simpl; intros; lia.
    + apply Z.ltb_ge in E.
      constructor; [auto|].
      apply Forall_forall; intros x Hx; apply insert_desc_in in Hx as [<-|Hx]; [lia|].
      rewrite Forall_forall in Hf; auto.
Qed.

Lemma sort_nums_sorted : forall xs, desc_sorted (fold_right insert_desc [] xs).
Proof.
  induction xs; simpl; [constructor|]; now apply insert_desc_sorted.
Qed.

Lemma sort_nums_in : forall xs x, In x (fold_right insert_desc [] xs) <-> In x xs.
Proof.
  induction xs as [|y xs IH]; simpl; intros x; [tauto|].
  rewrite insert_desc_in, IH; intuition.
Qed.

Lemma insert_desc_count : forall (p : Z -> bool) z l,
  length (filter p (insert_desc z l)) = length (filter p (z :: l)).
Proof.
  induction l as [|y l IH]; simpl; auto.
  destruct (y <? z); simpl; auto.
  destruct (p y); simpl; rewrite IH; simpl; destruct (p z); simpl; lia.
Qed.

Lemma sort_nums_count : forall (p : Z -> bool) xs,
  length (filter p (fold_right insert_desc [] xs)) = length (filter p xs).
Proof.
  induction xs as [|y xs IH]; [reflexivity|].
  cbn [fold_right]; rewrite insert_desc_count; simpl; destruct (p y); simpl; auto.
Qed.

Lemma filter_none_above : forall v l, Forall (fun b => b <= v) l -> filter (fun y => v <? y) l = [].
Proof.
  induction 1 as [|b l Hb Hl IH]; simpl; auto.
  rewrite (proj2 (Z.ltb_ge v b)) by lia; auto.
Qed.

(** In a descending list, the first occurrence of [v] sits after exactly the
    values greater than [v]. *)
Lemma sorted_first_index : forall l v,
  desc_sorted l -> In v l ->
  first_index (fun y => y =? v) l = Some (length (filter (fun y => v <? y) l)).
Proof.
  unfold desc_sorted; induction l as [|y l IH]; simpl; intros v Hs Hin; [contradiction|].
  inversion Hs as [|? ? Hl Hf]; subst.
  destruct (y =? v) eqn:E.
  - apply Z.eqb_eq in E; subst.
    rewrite Z.ltb_irrefl, filter_none_above; auto.
  - apply Z.eqb_neq in E.
    destruct Hin as [->|Hin]; [congruence|].
    rewrite Forall_forall in Hf; specialize (Hf _ Hin).
    rewrite (proj2 (Z.ltb_lt v y)) by lia; simpl.
    now rewrite IH.
Qed.

Lemma first_index_num_app : forall l t v i,
  first_index (fun y => y =? v) l = Some i ->
  first_index (fun x => cell_eq x (Num v)) (map Num l ++ t) = Some i.
Proof.
  induction l as [|y l IH]; intros t v i H; [discriminate|].
  cbn [first_index map app] in *.
  change (cell_eq (Num y) (Num v)) with (y =? v).
  destruct (y =? v); [exact H|].
  destruct (first_index _ l) as [j|] eqn:Hj; [|discriminate].
  simpl in H; injection H as <-; now rewrite (IH t v j).
Qed.

Lemma nums_in : forall col v, In (Num v) col -> In v (nums col).
Proof.
  induction col as [|[z|] col IH]; simpl; intros v H; [contradiction| |].
  - destruct H as [H|H]; [injection H as ->; auto|auto].
  - destruct H as [H|H]; [discriminate|auto].
Qed.

Lemma length_sort_desc : forall col, length (sort_desc col) = length col.
Proof.
  intros col; unfold sort_desc; rewrite length_app, length_map.
  assert (Hl : forall xs, length (fold_right insert_desc [] xs) = length xs).
  { intros xs; pose proof (sort_nums_count (fun _ => true) xs) as H.
    now rewrite !filter_true in H. }
  rewrite Hl; induction col as [|[z|] col IH]; simpl; lia.
Qed.

Lemma first_index_lt : forall {A} (p : A -> bool) l k, first_index p l = Some k -> (k < length l)%nat.
Proof.
  induction l as [|x l IH]; simpl; intros k H; [discriminate|].
  destruct (p x); [injection H as <-; lia|].
  destruct (first_index p l) as [j|] eqn:Hj; [|discriminate].
  simpl in H; injection H as <-; specialize (IH j eq_refl); lia.
Qed.

Lemma column_in : forall df label col, column df label = Return col -> In (label, col) df.
Proof.
  induction df as [|[l c] df IH]; simpl; intros label col H; [discriminate|].
  destruct (text_eqb l label) eqn:E; auto.
  apply text_eqb_true in E; injection H as <-; subst; auto.
Qed.

Lemma nums_in_inv : forall col v, In v (nums col) -> In (Num v) col.
Proof.
  induction col as [|[z|] col IH]; simpl; intros v H; auto.
  destruct H as [->|H]; auto.
Qed.

Lemma first_index_nan : forall col, first_index (fun x => cell_eq x NaN) col = None.
Proof.
  intros col.
  assert (G : forall {A} (p : A -> bool) l, (forall x, p x = false) -> first_index p l = None).
  { induction l as [|x l IH]; simpl; intros Hp; auto; now rewrite Hp, IH. }
  apply G; intros []; reflexivity.
Qed.

(** The rank a loop iteration stores for a column is one plus the number of
    the column's values above the target's value, which is a number. *)
Lemma rank_entry_count : forall df row label k,
  rank_entry df row label k ->
  exists col v,
    column df label = Return col /\ nth_error col row = Some (Num v) /\
    first_index (fun x => cell_eq x (Num v)) (sort_desc col) = Some (count_greater col v) /\
    k = Z.of_nat (count_greater col v) + 1.
Proof.
  intros df row label k (col & v & k0 & Hc & Hv & Hk & ->).
  destruct v as [z|]; [|now rewrite first_index_nan in Hk].
  assert (Hin : In z (fold_right insert_desc [] (nums col))).
  { apply sort_nums_in, nums_in; eapply nth_error_In; eauto. }
  pose proof (sorted_first_index _ _ (sort_nums_sorted (nums col)) Hin) as Hs.
  rewrite sort_nums_count in Hs.
  pose proof (first_index_num_app _ (nans col) _ _ Hs) as Hs'.
  fold (sort_desc col) in Hs'; unfold count_greater.
  rewrite Hk in Hs'; injection Hs' as ->.
  exists col, z; repeat split; auto.
Qed.

(** ** C1 *)

(** C1: in a successful [query_stock_rank], the rank stored for a column is
    the 1-based position, in the column's descending sort, of the first value
    equal to the target row's value (the target row being the first row whose
    [new_predict] equals the parsed code); it is one plus the number of
    larger values, hence 1 when the target row holds the column's maximum. *)
Theorem C1_rank_is_first_position :
  forall df stock_code n_days r label k,
    query_stock_rank df stock_code n_days = Return (Some r, None) ->
    In (label, k) r ->
    exists code idc row col v,
      py_int stock_code = Some code /\ column df id_label = Return idc /\
      first_index (fun x => cell_eq_int x code) idc = Some row /\
      column df label = Return col /\ nth_error col row = Some (Num v) /\
      first_index (fun x => cell_eq x (Num v)) (sort_desc col) = Some (Z.to_nat (k - 1)) /\
      k = Z.of_nat (count_greater col v) + 1 /\
      ((forall x, In (Num x) col -> x <= v) -> k = 1).
Proof.
  intros df stock_code n_days r label k H Hin.
  destruct (query_stock_rank_some _ _ _ _ _ H) as (code & idc & row & Hc & Hid & Hrow & _ & Hl & _).
  assert (He : rank_entry df row label k).
  { apply (rank_loop_entries _ _ _ _ _ Hl); [simpl; tauto|exact Hin]. }
  destruct (rank_entry_count _ _ _ _ He) as (col & v & Hcol & Hv & Hf & ->).
  exists code, idc, row, col, v; repeat split; auto.
  - rewrite Hf; f_equal; lia.
  - intros Hmax.
    assert (H0 : count_greater col v = O).
    { unfold count_greater; rewrite filter_none_above; auto.
      apply Forall_forall; intros x Hx; apply Hmax, nums_in_inv, Hx. }
    rewrite H0; reflexivity.
Qed.

(** ** C9 *)

(** C9: every rank of a successful [query_stock_rank] on a rectangular frame
    of [nrows] rows lies between 1 and [nrows]. *)
Theorem C9_rank_bounds :
  forall df stock_code n_days r nrows,
    (forall l c, In (l, c) df -> length c = nrows) ->
    query_stock_rank df stock_code n_days = Return (Some r, None) ->
    forall label k, In (label, k) r -> 1 <= k <= Z.of_nat nrows.
Proof.
  intros df stock_code n_days r nrows Hrect H label k Hin.
  destruct (query_stock_rank_some _ _ _ _ _ H) as (code & idc & row & _ & _ & _ & _ & Hl & _).
  assert (He : rank_entry df row label k).
  { apply (rank_loop_entries _ _ _ _ _ Hl); [simpl; tauto|exact Hin]. }
  destruct He as (col & v & k0 & Hc & Hv & Hk & ->).
  apply first_index_lt in Hk; rewrite length_sort_desc in Hk.
  rewrite (Hrect _ _ (column_in _ _ _ Hc)) in Hk; lia.
Qed.

(** ** Text lemmas *)

Lemma remove_go_absent : forall pat s fuel, occurs pat s = false -> remove_go fuel pat s = s.
Proof.
  induction s as [|c s IH]; intros [|fuel] H; simpl in *; auto.
  apply orb_false_iff in H as [H1 H2].
  rewrite H1; f_equal; auto.
Qed.

Lemma py_remove_absent : forall pat s, occurs pat s = false -> py_remove pat s = s.
Proof. intros; now apply remove_go_absent. Qed.

Lemma strip_suffixes_absent : forall s, has_cell_suffix s = false -> strip_suffixes s = s.
Proof.
  intros s H; unfold has_cell_suffix in H.
  apply orb_false_iff in H as [H H3]; apply orb_false_iff in H as [H1 H2].
  unfold strip_suffixes.
  rewrite (py_remove_absent _ s H1), (py_remove_absent _ s H2); exact (py_remove_absent _ s H3).
Qed.

Lemma occurs_absent_head : forall a p s, ~ In a s -> occurs (a :: p) s = false.
Proof.
  induction s as [|c s IH]; simpl; intros H; auto.
  rewrite IH by tauto.
  destruct (a =? c) eqn:E; [apply Z.eqb_eq in E; subst; tauto|reflexivity].
Qed.

Lemma no_dot_no_suffix : forall s, ~ In 46 s -> has_cell_suffix s = false.
Proof.
  intros s H; unfold has_cell_suffix; simpl.
  now rewrite !occurs_absent_head.
Qed.

Lemma decimal_no_dot : forall s, forallb is_decimal s = true -> ~ In 46 s.
Proof.
  intros s H Hin; rewrite forallb_forall in H.
  specialize (H _ Hin); discriminate H.
Qed.

Lemma re_match_no_dot : forall s, re_match_digits16 s = true -> ~ In 46 s.
Proof.
  intros s H; unfold re_match_digits16 in H.
  apply orb_true_iff in H as [H|H].
  - unfold digits16 in H; apply andb_prop in H as [H _]; apply andb_prop in H as [H _].
    now apply decimal_no_dot.
  - destruct (rev s) as [|c r] eqn:E; [discriminate|].
    apply andb_prop in H as [Hc H]; apply Z.eqb_eq in Hc; subst c.
    unfold digits16 in H; apply andb_prop in H as [H _]; apply andb_prop in H as [H _].
    apply decimal_no_dot in H.
    assert (Hs : s = rev r ++ [10]) by (rewrite <- (rev_involutive s), E; reflexivity).
    rewrite Hs; intros Hin; apply in_app_or in Hin as [Hin|[Hin|[]]]; [tauto|discriminate].
Qed.

Lemma zfill_long : forall s, (6 <= length s)%nat -> py_zfill 6 s = s.
Proof. intros s H; unfold py_zfill; now rewrite (proj2 (Nat.leb_le _ _) H). Qed.

Lemma zfill_length : forall s, (6 <= length (py_zfill 6 s))%nat.
Proof.
  intros s; unfold py_zfill.
  destruct (6 <=? length s)%nat eqn:E; [now apply Nat.leb_le|].
  apply Nat.leb_gt in E.
  destruct s as [|c r].
  - rewrite repeat_length; cbn [length] in *; lia.
  - destruct ((c =? 43) || (c =? 45)); cbn [length];
      rewrite ?length_app, repeat_length; cbn [length] in *; lia.
Qed.

Lemma zfill_no_dot : forall s, ~ In 46 s -> ~ In 46 (py_zfill 6 s).
Proof.
  intros s H; unfold py_zfill.
  destruct (6 <=? length s)%nat; [exact H|].
  assert (Hp : forall n, ~ In 46 (repeat 48 n))
    by (intros n Hin; apply repeat_spec in Hin; discriminate).
  destruct s as [|c r]; [apply Hp|].
  destruct ((c =? 43) || (c =? 45)); intros Hin.
  - destruct Hin as [->|Hin]; [apply H; now left|].
    apply in_app_or in Hin as [Hin|Hin]; [exact (Hp _ Hin)|apply H; now right].
  - apply in_app_or in Hin as [Hin|Hin]; [exact (Hp _ Hin)|exact (H Hin)].
Qed.

Lemma ascii_digit_decimal : forall c, ascii_digit c = true -> is_decimal c = true.
Proof.
  intros c H; unfold ascii_digit in H; apply andb_prop in H as [H1 H2].
  apply Z.leb_le in H1; apply Z.leb_le in H2.
  unfold is_decimal, decimal_value; cbn [decimal_in decimal_starts].
  rewrite (proj2 (Z.leb_le 48 c) H1), (proj2 (Z.ltb_lt c (48 + 10))) by lia.
  reflexivity.
Qed.

Lemma process_cell_canonical : forall w,
  ~ In 46 w -> (6 <= length w)%nat -> process_cell w = w.
Proof.
  intros w Hd Hl; unfold process_cell.
  rewrite strip_suffixes_absent by now apply no_dot_no_suffix.
  destruct (re_match_digits16 w); [now apply zfill_long|reflexivity].
Qed.

(** ** C6 *)

(** C6 (amended): with [s] the value after the three suffix removals,
    [process_cell] zero-pads [s] to six ASCII digits when [s] is 1 to 6 ASCII
    digits, returns [s] unchanged when [s] does not match [^\d{1,6}$], and is
    idempotent on every value whose [s] contains none of the three suffixes. *)
Theorem C6_process_cell :
  (forall v, let s := strip_suffixes v in
     forallb ascii_digit s = true -> (1 <= length s <= 6)%nat ->
     process_cell v = repeat 48 (6 - length s) ++ s
     /\ length (process_cell v) = 6%nat /\ forallb ascii_digit (process_cell v) = true)
  /\ (forall v, re_match_digits16 (strip_suffixes v) = false -> process_cell v = strip_suffixes v)
  /\ (forall v, has_cell_suffix (strip_suffixes v) = false ->
        process_cell (process_cell v) = process_cell v).
Proof.
  split; [|split].
  - intros v s Hd Hl.
    assert (Hm : re_match_digits16 s = true).
    { unfold re_match_digits16, digits16.
      assert (Hdec : forallb is_decimal s = true).
      { rewrite forallb_forall in *; intros c Hc; apply ascii_digit_decimal; auto. }
      rewrite Hdec, (proj2 (Nat.leb_le 1 _)), (proj2 (Nat.leb_le _ 6)) by lia; reflexivity. }
    assert (Hz : py_zfill 6 s = repeat 48 (6 - length s) ++ s).
    { unfold py_zfill.
      destruct (6 <=? length s)%nat eqn:E.
      - apply Nat.leb_le in E; replace (6 - length s)%nat with O by lia; reflexivity.
      - destruct s as [|c r] eqn:Es; [simpl in Hl; lia|].
        simpl in Hd; apply andb_prop in Hd as [Hc _].
        unfold ascii_digit in Hc; apply andb_prop in Hc as [Hc1 Hc2].
        apply Z.leb_le in Hc1; apply Z.leb_le in Hc2.
        rewrite (proj2 (Z.eqb_neq c 43)), (proj2 (Z.eqb_neq c 45)) by lia; reflexivity. }
    assert (Hp : process_cell v = repeat 48 (6 - length s) ++ s).
    { unfold process_cell; fold s; now rewrite Hm. }
    rewrite Hp; repeat split.
    + rewrite length_app, repeat_length; lia.
    + rewrite forallb_app, Hd, andb_true_r.
      apply forallb_forall; intros x Hx; apply repeat_spec in Hx; now subst.
  - intros v H; unfold process_cell; now rewrite H.
  - intros v H; unfold process_cell at 2 3.
    destruct (re_match_digits16 (strip_suffixes v)) eqn:E.
    + apply process_cell_canonical; [|apply zfill_length].
      apply zfill_no_dot, re_match_no_dot, E.
    + unfold process_cell; rewrite (strip_suffixes_absent _ H), E; reflexivity.
Qed.

(** ["1.S.SHH"] normalises to ["1.SH"], which normalises to ["000001"]. *)
Lemma C6_counterexample :
  process_cell (of_ascii "1.S.SHH") = of_ascii "1.SH"
  /\ process_cell (process_cell (of_ascii "1.S.SHH")) = of_ascii "000001".
Proof. split; reflexivity. Qed.

(** ** [str.strip] *)

Lemma drop_space_idem : forall s, drop_space (drop_space s) = drop_space s.
Proof.
  induction s as [|c s IH]; simpl; auto.
  destruct (is_space c) eqn:E; auto; simpl; now rewrite E.
Qed.

Lemma drop_space_suffix : forall s, exists p, s = p ++ drop_space s.
Proof.
  induction s as [|c s [p Hp]]; simpl; [now exists []|].
  destruct (is_space c); [exists (c :: p); simpl; now f_equal|now exists []].
Qed.

Lemma drop_space_head : forall s c r, drop_space s = c :: r -> is_space c = false.
Proof.
  induction s as [|d s IH]; simpl; intros c r H; [discriminate|].
  destruct (is_space d) eqn:E; [eauto|injection H as -> ->; exact E].
Qed.

Lemma py_strip_idem : forall s, py_strip (py_strip s) = py_strip s.
Proof.
  intros s; unfold py_strip.
  set (t := drop_space s).
  set (u := rev (drop_space (rev t))).
  assert (Hu : drop_space u = u).
  { destruct u as [|c r] eqn:Eu; [reflexivity|].
    destruct (drop_space_suffix (rev t)) as [p Hp].
    assert (Ht : t = u ++ rev p).
    { unfold u; rewrite <- rev_app_distr, <- Hp, rev_involutive; reflexivity. }
    rewrite Eu in Ht; simpl in Ht.
    assert (Hc : is_space c = false).
    { apply (drop_space_head s c (r ++ rev p)); exact Ht. }
    simpl; now rewrite Hc. }
  rewrite Hu; unfold u; rewrite rev_involutive, drop_space_idem; reflexivity.
Qed.

(** ** C7 *)

(** C7 (amended): [process_header] keeps the length and order of the labels;
    each label becomes the text left by deleting the non-overlapping
    left-to-right occurrences of ["00:00:00"], then trimmed; a label without
    that substring is only trimmed; and [process_header] is idempotent on
    labels whose normalised form no longer contains ["00:00:00"]. *)
Theorem C7_process_header :
  (forall header, length (process_header header) = length header)
  /\ (forall header i col, nth_error header i = Some col ->
        nth_error (process_header header) i = Some (py_strip (py_remove time_suffix col)))
  /\ (forall col, occurs time_suffix col = false -> process_header [col] = [py_strip col])
  /\ (forall header,
        Forall (fun col => occurs time_suffix (py_strip (py_remove time_suffix col)) = false) header ->
        process_header (process_header header) = process_header header).
Proof.
  split; [|split; [|split]].
  - intros header; apply length_map.
  - intros header i col H; unfold process_header; now rewrite nth_error_map, H.
  - intros col H; unfold process_header; simpl; now rewrite py_remove_absent.
  - induction 1 as [|col header Hc Hh IH]; [reflexivity|].
    unfold process_header in *; simpl; rewrite IH.
    now rewrite py_remove_absent, py_strip_idem.
Qed.

(** [" d1"] has no ["00:00:00"] yet is changed; ["00:000:00:000:00"]
    normalises to ["00:00:00"], which normalises to [""]. *)
Lemma C7_counterexample :
  process_header [of_ascii " d1"] = [of_ascii "d1"]
  /\ process_header [of_ascii "00:000:00:000:00"] = [of_ascii "00:00:00"]
  /\ process_header (process_header [of_ascii "00:000:00:000:00"]) = [[]].
Proof. repeat split; reflexivity. Qed.

(** ** Witnesses *)

Lemma C1_witness :
  query_stock_rank demo (of_ascii "000001") 2 = Return (Some demo_ranks, None)
  /\ In (of_ascii "d1", 1) demo_ranks
  /\ exists code idc row col v,
      py_int (of_ascii "000001") = Some code /\ column demo id_label = Return idc /\
      first_index (fun x => cell_eq_int x code) idc = Some row /\
      column demo (of_ascii "d1") = Return col /\ nth_error col row = Some (Num v) /\
      first_index (fun x => cell_eq x (Num v)) (sort_desc col) = Some (Z.to_nat (1 - 1)) /\
      1 = Z.of_nat (count_greater col v) + 1 /\
      ((forall x, In (Num x) col -> x <= v) -> 1 = 1).
Proof.
  split; [reflexivity|split; [left; reflexivity|]].
  exact (C1_rank_is_first_position demo (of_ascii "000001") 2 demo_ranks (of_ascii "d1") 1
           eq_refl (or_introl eq_refl)).
Defined.

Lemma C2_witness :
  0 < 2 <= Z.of_nat (length demo) - 1 /\ NoDup (labels demo)
  /\ query_stock_rank demo (of_ascii "000001") 2 = Return (Some demo_ranks, None)
  /\ map fst demo_ranks = firstn (Z.to_nat 2) (skipn (length demo - 1 - Z.to_nat 2) (labels demo))
  /\ length demo_ranks = Z.to_nat 2.
Proof.
  assert (Hn : 0 < 2 <= Z.of_nat (length demo) - 1) by (simpl; lia).
  assert (Hd : NoDup (labels demo)).
  { repeat constructor; simpl; intros H; repeat destruct H as [H|H]; try discriminate; contradiction. }
  split; [exact Hn|split; [exact Hd|split; [reflexivity|]]].
  exact (C2_recent_columns demo (of_ascii "000001") 2 demo_ranks Hn Hd eq_refl).
Defined.

Lemma C3_witness :
  py_int (of_ascii "000001") = Some 1 /\ column demo id_label = Return [Num 1; Num 2; Num 3]
  /\ existsb (fun x => cell_eq_int x 1) [Num 1; Num 2; Num 3] = true
  /\ Z.of_nat (length demo) - 1 < 3
  /\ query_stock_rank demo (of_ascii "000001") 3
     = Return (None, Some (msg_exceeds (Z.of_nat (length demo) - 1))).
Proof.
  assert (Hl : Z.of_nat (length demo) - 1 < 3) by (simpl; lia).
  split; [reflexivity|split; [reflexivity|split; [reflexivity|split; [exact Hl|]]]].
  exact (C3_window_exceeds demo (of_ascii "000001") 1 [Num 1; Num 2; Num 3] 3
           eq_refl eq_refl eq_refl Hl).
Defined.

Lemma C5_witness :
  query_stock_rank demo (of_ascii "000001") 2 = Return (Some demo_ranks, None)
  /\ ((exists r, (Some demo_ranks, @None text) = (Some r, None) /\ (0 < 2 -> r <> []) /\ (2 = 0 -> r = []))
      \/ (exists m, (Some demo_ranks, @None text) = (None, Some m) /\ m <> [])).
Proof.
  split; [reflexivity|].
  exact (C5_one_component demo (of_ascii "000001") 2 (Some demo_ranks, None) eq_refl).
Defined.

Lemma C6_witness :
  (forallb ascii_digit (strip_suffixes (of_ascii "12.SH")) = true
   /\ (1 <= length (strip_suffixes (of_ascii "12.SH")) <= 6)%nat
   /\ process_cell (of_ascii "12.SH")
      = repeat 48 (6 - length (strip_suffixes (of_ascii "12.SH"))) ++ strip_suffixes (of_ascii "12.SH"))
  /\ (re_match_digits16 (strip_suffixes (of_ascii "abc.csv")) = false
      /\ process_cell (of_ascii "abc.csv") = strip_suffixes (of_ascii "abc.csv"))
  /\ (has_cell_suffix (strip_suffixes (of_ascii "000001")) = false
      /\ process_cell (process_cell (of_ascii "000001")) = process_cell (of_ascii "000001")).
Proof.
  assert (Hl : (1 <= length (strip_suffixes (of_ascii "12.SH")) <= 6)%nat) by (vm_compute; lia).
  split; [|split].
  - split; [reflexivity|split; [exact Hl|]].
    exact (proj1 (proj1 C6_process_cell (of_ascii "12.SH") eq_refl Hl)).
  - split; [reflexivity|].
    exact (proj1 (proj2 C6_process_cell) (of_ascii "abc.csv") eq_refl).
  - split; [reflexivity|].
    exact (proj2 (proj2 C6_process_cell) (of_ascii "000001") eq_refl).
Defined.

Lemma C7_witness :
  (nth_error [of_ascii "2024-01-02 00:00:00"] 0 = Some (of_ascii "2024-01-02 00:00:00")
   /\ nth_error (process_header [of_ascii "2024-01-02 00:00:00"]) 0
      = Some (py_strip (py_remove time_suffix (of_ascii "2024-01-02 00:00:00"))))
  /\ (occurs time_suffix (of_ascii " d1") = false
      /\ process_header [of_ascii " d1"] = [py_strip (of_ascii " d1")])
  /\ (Forall (fun col => occurs time_suffix (py_strip (py_remove time_suffix col)) = false)
        [of_ascii "2024-01-02 00:00:00"; of_ascii "new_predict"]
      /\ process_header (process_header [of_ascii "2024-01-02 00:00:00"; of_ascii "new_predict"])
         = process_header [of_ascii "2024-01-02 00:00:00"; of_ascii "new_predict"]).
Proof.
  destruct C7_process_header as (_ & H2 & H3 & H4).
  split; [|split].
  - split; [reflexivity|].
    exact (H2 [of_ascii "2024-01-02 00:00:00"] 0%nat (of_ascii "2024-01-02 00:00:00") eq_refl).
  - split; [reflexivity|]; exact (H3 (of_ascii " d1") eq_refl).
  - assert (HF : Forall (fun col => occurs time_suffix (py_strip (py_remove time_suffix col)) = false)
                   [of_ascii "2024-01-02 00:00:00"; of_ascii "new_predict"])
      by (repeat constructor).
    split; [exact HF|exact (H4 _ HF)].
Defined.

Lemma C9_witness :
  (forall l c, In (l, c) demo -> length c = 3%nat)
  /\ query_stock_rank demo (of_ascii "000001") 2 = Return (Some demo_ranks, None)
  /\ (forall label k, In (label, k) demo_ranks -> 1 <= k <= Z.of_nat 3).
Proof.
  assert (Hr : forall l c, In (l, c) demo -> length c = 3%nat).
  { intros l c H; simpl in H; repeat destruct H as [H|H];
      try (injection H as _ <-; reflexivity); contradiction. }
  split; [exact Hr|split; [reflexivity|]].
  exact (C9_rank_bounds demo (of_ascii "000001") 2 demo_ranks 3 Hr eq_refl).
Defined.

Lemma C10_witness :
  form_get form_bad_days (of_ascii "n_days") = Some (of_ascii "two")
  /\ py_int (of_ascii "two") = None
  /\ (index_post form_bad_days broken_world = ([], Raise TypeError)
      \/ index_post form_bad_days broken_world = ([], Raise ValueError)).
Proof.
  split; [reflexivity|split; [reflexivity|]].
  apply C10_n_days_raises_first.
  right; exists (of_ascii "two"); split; reflexivity.
Defined.

Example t11 : processed_path 47 None (of_ascii "/data/rf_predict2.csv") = of_ascii "/data/rf_predict2_processed.csv".
Proof. reflexivity. Qed.
Example t12 : py_splitext 47 None (of_ascii "/a.b/.hidden") = (of_ascii "/a.b/.hidden", []).
Proof. reflexivity. Qed.
Example t13 : py_splitext 92 (Some 47) (of_ascii "C:\x\f.tar.csv") = (of_ascii "C:\x\f.tar", of_ascii ".csv").
Proof. reflexivity. Qed.

(** * Further properties of the code *)

(** ** [int()] on ASCII digit text *)

Lemma sign_of_digit : forall c r, 48 <= c <= 57 ->
  (match c :: r with 43 :: r' => (1, r') | 45 :: r' => (-1, r') | _ => (1, c :: r) end) = (1, c :: r).
Proof.
  intros c r H.
  assert (c = 48 \/ c = 49 \/ c = 50 \/ c = 51 \/ c = 52 \/ c = 53 \/ c = 54 \/ c = 55 \/ c = 56 \/ c = 57)
    as Hc by lia.
  repeat destruct Hc as [->|Hc]; try reflexivity; subst; reflexivity.
Qed.

Lemma drop_c_space_keep : forall l, forallb (fun c => negb (c_space c)) l = true -> drop_c_space l = l.
Proof.
  destruct l as [|c l]; simpl; auto; intros H.
  apply andb_prop in H as [H _]; now destruct (c_space c).
Qed.

Lemma ascii_digit_not_c_space : forall l, forallb ascii_digit l = true ->
  forallb (fun c => negb (c_space c)) l = true.
Proof.
  intros l H; rewrite forallb_forall in *; intros c Hc; specialize (H c Hc).
  unfold ascii_digit, c_space in *; apply andb_prop in H as [H1 H2].
  apply Z.leb_le in H1; apply Z.leb_le in H2.
  rewrite (proj2 (Z.leb_gt c 13)) by lia; rewrite (proj2 (Z.eqb_neq c 32)) by lia.
  now rewrite andb_false_r.
Qed.

Lemma forallb_rev : forall {A} (p : A -> bool) l, forallb p (rev l) = forallb p l.
Proof.
  intros A p l; apply eq_true_iff_eq; rewrite !forallb_forall.
  split; intros H x Hx; apply H; [apply in_rev|apply in_rev in Hx]; auto.
  rewrite rev_involutive; auto.
Qed.

Lemma map_to_ascii_keep : forall l, forallb ascii_digit l = true -> map to_ascii_char l = l.
Proof.
  induction l as [|c l IH]; simpl; auto; intros H.
  apply andb_prop in H as [Hc Hl]; rewrite IH by auto.
  unfold ascii_digit in Hc; apply andb_prop in Hc as [_ Hc]; apply Z.leb_le in Hc.
  unfold to_ascii_char; now rewrite (proj2 (Z.ltb_lt c 128)) by lia.
Qed.


Lemma underscore_digits_plain : forall l b, forallb ascii_digit l = true -> (l <> [] \/ b = true) ->
  underscore_digits b l = Some (digit_values l).
Proof.
  induction l as [|c l IH]; simpl; intros b H Hb.
  - destruct Hb as [Hb | ->]; [congruence|reflexivity].
  - apply andb_prop in H as [Hc Hl]; unfold ascii_digit in Hc; rewrite Hc.
    rewrite IH by auto; reflexivity.
Qed.

(** [int(s)] for a non-empty string of at most 4300 ASCII digits is the
    number they spell. *)
Lemma py_int_ascii_digits : forall l, forallb ascii_digit l = true -> l <> [] ->
  (length l <= 4300)%nat -> py_int l = Some (digits_value (digit_values l)).
Proof.
  intros l H Hne Hlen; unfold py_int.
  rewrite map_to_ascii_keep by exact H.
  rewrite (drop_c_space_keep l) by now apply ascii_digit_not_c_space.
  rewrite (drop_c_space_keep (rev l)) by (rewrite forallb_rev; now apply ascii_digit_not_c_space).
  rewrite rev_involutive.
  destruct l as [|c r] eqn:El; [congruence|].
  rewrite sign_of_digit.
  2: { simpl in H; apply andb_prop in H as [Hc _]; unfold ascii_digit in Hc.
       apply andb_prop in Hc as [H1 H2]; apply Z.leb_le in H1; apply Z.leb_le in H2; lia. }
  rewrite <- El in *.
  rewrite underscore_digits_plain by (try exact H; left; subst; discriminate).
  unfold digit_values; rewrite length_map.
  unfold max_str_digits; rewrite (proj2 (Nat.ltb_ge _ _) Hlen).
  f_equal; lia.
Qed.

Lemma digits_value_acc : forall ds acc,
  fold_left (fun a d => a * 10 + d) ds acc = acc * 10 ^ Z.of_nat (length ds) + digits_value ds.
Proof.
  unfold digits_value; induction ds as [|d ds IH]; intros acc; [simpl; lia|].
  cbn [fold_left length].
  rewrite (IH (acc * 10 + d)), (IH (0 * 10 + d)).
  rewrite Nat2Z.inj_succ, Z.pow_succ_r by lia; ring.
Qed.

Lemma digits_value_zeros : forall k ds, digits_value (repeat 0 k ++ ds) = digits_value ds.
Proof.
  intros k ds; unfold digits_value; rewrite fold_left_app.
  assert (H0 : fold_left (fun a d => a * 10 + d) (repeat 0 k) 0 = 0).
  { induction k; simpl; auto. }
  now rewrite H0.
Qed.

(** ** [str(n)] and [int()] *)

Lemma pos_repr_go_spec : forall f n acc,
  f <> O -> 0 <= n < 10 ^ Z.of_nat f -> forallb ascii_digit acc = true ->
  forallb ascii_digit (pos_repr_go f n acc) = true /\ pos_repr_go f n acc <> [] /\
  digits_value (digit_values (pos_repr_go f n acc))
  = n * 10 ^ Z.of_nat (length acc) + digits_value (digit_values acc).
Proof.
  induction f as [|f IH]; intros n acc Hf Hn Hacc; [congruence|].
  cbn [pos_repr_go].
  assert (Hd : 0 <= n mod 10 < 10) by (apply Z.mod_pos_bound; lia).
  assert (Hacc' : forallb ascii_digit ((48 + n mod 10) :: acc) = true).
  { cbn [forallb]; rewrite Hacc, andb_true_r; unfold ascii_digit.
    rewrite (proj2 (Z.leb_le 48 _)), (proj2 (Z.leb_le _ 57)) by lia; reflexivity. }
  assert (Hv : digits_value (digit_values ((48 + n mod 10) :: acc))
               = n mod 10 * 10 ^ Z.of_nat (length acc) + digits_value (digit_values acc)).
  { unfold digit_values at 1; cbn [map]; unfold digits_value at 1; cbn [fold_left].
    rewrite digits_value_acc; unfold digit_values; rewrite length_map.
    replace (48 + n mod 10 - 48) with (n mod 10) by lia; ring. }
  destruct (n <? 10) eqn:E.
  - apply Z.ltb_lt in E.
    repeat split; [exact Hacc'|discriminate|].
    rewrite Hv, Z.mod_small by lia; reflexivity.
  - apply Z.ltb_ge in E.
    assert (Hf' : f <> O).
    { intros ->; simpl in Hn; lia. }
    rewrite Nat2Z.inj_succ, Z.pow_succ_r in Hn by lia.
    assert (Hq : 0 <= n / 10 < 10 ^ Z.of_nat f).
    { split; [apply Z.div_pos; lia|apply Z.div_lt_upper_bound; lia]. }
    destruct (IH (n / 10) _ Hf' Hq Hacc') as (H1 & H2 & H3).
    repeat split; auto.
    rewrite H3, Hv; cbn [length]; rewrite Nat2Z.inj_succ, Z.pow_succ_r by lia.
    rewrite (Z.div_mod n 10) at 3 by lia; ring.
Qed.

Lemma pos_repr_fuel : forall n, 0 <= n ->
  0 <= n < 10 ^ Z.of_nat (Z.to_nat (Z.log2 n) + 1).
Proof.
  intros n Hn; split; [exact Hn|].
  rewrite Nat2Z.inj_add, Z2Nat.id by apply Z.log2_nonneg; simpl (Z.of_nat 1).
  apply Z.lt_le_trans with (2 ^ (Z.log2 n + 1)).
  - destruct (Z.eq_dec n 0) as [->|Hz]; [simpl; lia|].
    rewrite Z.pow_add_r, Z.pow_1_r by (try apply Z.log2_nonneg; lia).
    destruct (Z.log2_spec n) as [_ H]; [lia|].
    rewrite Z.pow_succ_r in H by apply Z.log2_nonneg; lia.
  - apply Z.pow_le_mono_l; lia.
Qed.

Lemma z_repr_digits : forall n, 0 <= n ->
  let out := pos_repr_go (Z.to_nat (Z.log2 n) + 1) n [] in
  forallb ascii_digit out = true /\ out <> [] /\ digits_value (digit_values out) = n.
Proof.
  intros n Hn out.
  destruct (pos_repr_go_spec (Z.to_nat (Z.log2 n) + 1) n [] ltac:(lia) (pos_repr_fuel n Hn) eq_refl)
    as (H1 & H2 & H3).
  split; [exact H1|split; [exact H2|]].
  unfold out; rewrite H3; cbn [length Z.of_nat]; rewrite Z.pow_0_r; unfold digit_values, digits_value; simpl; ring.
Qed.

(** X: [int(str(n)) == n] for every Python [int] whose decimal text has at
    most 4300 characters; this is how the [max_days] of the "exceeds" message
    and each rank of [generate_rank_text] read back. *)
Theorem X_int_str_roundtrip : forall n,
  (length (z_repr n) <= 4300)%nat -> py_int (z_repr n) = Some n.
Proof.
  intros n Hlen; unfold z_repr in *.
  destruct (n <? 0) eqn:En.
  - apply Z.ltb_lt in En.
    destruct (z_repr_digits (- n) ltac:(lia)) as (H1 & H2 & H3).
    set (out := pos_repr_go (Z.to_nat (Z.log2 (- n)) + 1) (- n) []) in *.
    unfold py_int; cbn [map]; rewrite map_to_ascii_keep by exact H1.
    replace (to_ascii_char 45) with 45 by reflexivity.
    replace (drop_c_space (45 :: out)) with (45 :: out) by reflexivity.
    rewrite (drop_c_space_keep (rev (45 :: out))).
    2: { rewrite forallb_rev; cbn [forallb]; rewrite (ascii_digit_not_c_space _ H1); reflexivity. }
    rewrite rev_involutive; cbn beta iota.
    rewrite underscore_digits_plain by auto.
    unfold max_str_digits, digit_values; rewrite length_map.
    cbn [length] in Hlen; rewrite (proj2 (Nat.ltb_ge _ _)) by lia.
    fold (digit_values out); rewrite H3; f_equal; lia.
  - apply Z.ltb_ge in En.
    destruct (z_repr_digits n En) as (H1 & H2 & H3).
    rewrite py_int_ascii_digits by auto; now rewrite H3.
Qed.

Lemma X_int_str_roundtrip_witness :
  (length (z_repr (-1203)) <= 4300)%nat /\ py_int (z_repr (-1203)) = Some (-1203).
Proof.
  assert (H : (length (z_repr (-1203)) <= 4300)%nat) by (vm_compute; lia).
  split; [exact H|exact (X_int_str_roundtrip (-1203) H)].
Defined.

(** ** Codes that [int()] reads alike *)

Lemma py_int_zero_padded : forall k ds,
  forallb ascii_digit ds = true -> ds <> [] -> (k + length ds <= 4300)%nat ->
  py_int (repeat 48 k ++ ds) = py_int ds.
Proof.
  intros k ds Hd Hne Hlen.
  assert (Hz : forallb ascii_digit (repeat 48 k) = true).
  { apply forallb_forall; intros x Hx; apply repeat_spec in Hx; now subst. }
  assert (Hd' : forallb ascii_digit (repeat 48 k ++ ds) = true) by now rewrite forallb_app, Hz, Hd.
  assert (Hne' : repeat 48 k ++ ds <> []) by (destruct ds; [congruence|]; destruct k; simpl; discriminate).
  assert (Hl' : (length (repeat 48%Z k ++ ds) <= 4300)%nat) by (rewrite length_app, repeat_length; lia).
  rewrite (py_int_ascii_digits _ Hd' Hne' Hl'), (py_int_ascii_digits _ Hd Hne) by lia.
  unfold digit_values; rewrite map_app, map_repeat; simpl (48 - 48).
  now rewrite digits_value_zeros.
Qed.

(** X: a code of ASCII digits and the same code with leading zeros give the
    same [query_stock_rank] result, on every frame and window (within
    [int()]'s 4300-digit limit): ["000001"] and ["1"] are one stock. *)
Theorem X_query_leading_zeros : forall df ds k n_days,
  forallb ascii_digit ds = true -> ds <> [] -> (k + length ds <= 4300)%nat ->
  query_stock_rank df (repeat 48 k ++ ds) n_days = query_stock_rank df ds n_days.
Proof.
  intros df ds k n_days Hd Hne Hlen; unfold query_stock_rank.
  now rewrite py_int_zero_padded.
Qed.

Lemma X_query_leading_zeros_witness :
  forallb ascii_digit (of_ascii "1") = true /\ of_ascii "1" <> []
  /\ (5 + length (of_ascii "1") <= 4300)%nat
  /\ query_stock_rank demo (repeat 48 5 ++ of_ascii "1") 2 = query_stock_rank demo (of_ascii "1") 2.
Proof.
  assert (H3 : (5 + length (of_ascii "1") <= 4300)%nat) by (simpl; lia).
  assert (H2 : of_ascii "1" <> []) by discriminate.
  split; [reflexivity|split; [exact H2|split; [exact H3|]]].
  exact (X_query_leading_zeros demo (of_ascii "1") 5 2 eq_refl H2 H3).
Defined.

(** ** Lookup failures of [query_stock_rank] *)

Lemma first_index_none : forall {A} (p : A -> bool) l, existsb p l = false -> first_index p l = None.
Proof.
  induction l as [|x l IH]; simpl; intros H; auto.
  apply orb_false_iff in H as [H1 H2]; now rewrite H1, IH.
Qed.

(** X: a code that parses but matches no [new_predict] value gives the
    "not found" pair for every window, the window check coming after. *)
Theorem X_query_not_found : forall df stock_code code idc n_days,
  py_int stock_code = Some code -> column df id_label = Return idc ->
  existsb (fun x => cell_eq_int x code) idc = false ->
  query_stock_rank df stock_code n_days = Return (None, Some msg_not_found).
Proof.
  intros df stock_code code idc n_days Hc Hid Hn; unfold query_stock_rank.
  rewrite Hc, Hid; simpl; now rewrite first_index_none.
Qed.

Lemma X_query_not_found_witness :
  py_int (of_ascii "7") = Some 7 /\ column demo id_label = Return [Num 1; Num 2; Num 3]
  /\ existsb (fun x => cell_eq_int x 7) [Num 1; Num 2; Num 3] = false
  /\ query_stock_rank demo (of_ascii "7") 99 = Return (None, Some msg_not_found).
Proof.
  split; [reflexivity|split; [reflexivity|split; [reflexivity|]]].
  exact (X_query_not_found demo (of_ascii "7") 7 _ 99 eq_refl eq_refl eq_refl).
Defined.

Lemma column_absent : forall df label, ~ In label (labels df) -> column df label = Raise KeyError.
Proof.
  induction df as [|[l c] df IH]; simpl; intros label H; auto.
  destruct (text_eqb l label) eqn:E; [apply text_eqb_true in E; tauto|].
  apply IH; tauto.
Qed.

(** X: a frame without a [new_predict] column makes [query_stock_rank] raise
    [KeyError] for every code that parses. *)
Theorem X_query_no_id_column : forall df stock_code code n_days,
  py_int stock_code = Some code -> ~ In id_label (labels df) ->
  query_stock_rank df stock_code n_days = Raise KeyError.
Proof.
  intros df stock_code code n_days Hc Hl; unfold query_stock_rank.
  now rewrite Hc, column_absent.
Qed.

Lemma X_query_no_id_column_witness :
  py_int (of_ascii "1") = Some 1 /\ ~ In id_label (labels [(of_ascii "d1", [Num 1])])
  /\ query_stock_rank [(of_ascii "d1", [Num 1])] (of_ascii "1") 1 = Raise KeyError.
Proof.
  assert (Hl : ~ In id_label (labels [(of_ascii "d1", [Num 1])])).
  { simpl; intros [H|[]]; discriminate. }
  split; [reflexivity|split; [exact Hl|]].
  exact (X_query_no_id_column _ (of_ascii "1") 1 1 eq_refl Hl).
Defined.

(** ** Missing values *)

Lemma rank_loop_nan : forall df row label col cols acc,
  In label cols -> column df label = Return col -> nth_error col row = Some NaN ->
  exists e, rank_loop df row acc cols = Raise e.
Proof.
  intros df row label col; induction cols as [|c cols IH]; simpl; intros acc Hin Hc Hv; [contradiction|].
  destruct (rank_step df row acc c) as [e|acc'] eqn:Hs; simpl; [now exists e|].
  destruct Hin as [->|Hin]; [|now apply IH].
  unfold rank_step in Hs; rewrite Hc in Hs; simpl in Hs.
  unfold nth_value in Hs; rewrite Hv in Hs; simpl in Hs.
  now rewrite first_index_nan in Hs.
Qed.

(** X: when the target row has a missing value (NaN) in one of the selected
    columns, [query_stock_rank] raises instead of returning ranks. *)
Theorem X_query_nan_raises : forall df stock_code code idc row n_days label col,
  py_int stock_code = Some code -> column df id_label = Return idc ->
  first_index (fun x => cell_eq_int x code) idc = Some row ->
  0 < n_days <= Z.of_nat (length df) - 1 ->
  In label (firstn (Z.to_nat n_days) (skipn (length df - 1 - Z.to_nat n_days) (labels df))) ->
  column df label = Return col -> nth_error col row = Some NaN ->
  exists e, query_stock_rank df stock_code n_days = Raise e.
Proof.
  intros df stock_code code idc row n_days label col Hc Hid Hrow Hn Hin Hcol Hv.
  unfold query_stock_rank; rewrite Hc, Hid; simpl; rewrite Hrow.
  rewrite (proj2 (Z.ltb_ge _ _)) by lia.
  assert (Hlen : length (labels df) = length df) by apply length_map.
  rewrite py_slice_recent by (rewrite Hlen; lia); rewrite Hlen.
  destruct (rank_loop_nan df row label col _ [] Hin Hcol Hv) as [e He].
  rewrite He; now exists e.
Qed.

Lemma X_query_nan_raises_witness :
  exists e, query_stock_rank demo_nan (of_ascii "1") 1 = Raise e.
Proof.
  assert (Hn : 0 < 1 <= Z.of_nat (length demo_nan) - 1) by (simpl; lia).
  apply (X_query_nan_raises demo_nan (of_ascii "1") 1 [Num 1; Num 2] 0 1 (of_ascii "d2") [NaN; Num 9]
           eq_refl eq_refl eq_refl Hn); [simpl; now left|reflexivity|reflexivity].
Defined.

(** ** Negative windows *)

Lemma py_slice_negative : forall {A} (xs : list A) n,
  n < 0 ->
  py_slice xs (- n - 1) (-1) = skipn (Z.to_nat (- n - 1)) (firstn (length xs - 1) xs).
Proof.
  intros A xs n Hn; unfold py_slice, slice_index.
  rewrite (proj2 (Z.ltb_ge (- n - 1) 0)) by lia.
  rewrite (proj2 (Z.ltb_lt (-1) 0)) by lia.
  rewrite skipn_firstn_comm.
  destruct (Z_le_gt_dec (- n - 1) (Z.of_nat (length xs))) as [Hle|Hgt].
  - rewrite Z.min_l by lia.
    f_equal; lia.
  - rewrite Z.min_r by lia.
    rewrite !skipn_all2 by lia.
    now rewrite !firstn_nil.
Qed.

(** X: a negative window is never refused: for a code that parses and
    matches a row, [query_stock_rank] never returns an error pair (it skips
    the exceeds check), and whenever it returns, it ranks the columns
    [df.columns[-n_days-1:-1]], that is every column but the last one from
    position [-n_days-1] on ([n_days = -1]: all of them). *)
Theorem X_query_negative_window : forall df stock_code code idc n_days res,
  n_days < 0 -> NoDup (labels df) ->
  py_int stock_code = Some code -> column df id_label = Return idc ->
  existsb (fun x => cell_eq_int x code) idc = true ->
  query_stock_rank df stock_code n_days = Return res ->
  exists r, res = (Some r, None) /\
    map fst r = skipn (Z.to_nat (- n_days - 1)) (firstn (length df - 1) (labels df)).
Proof.
  intros df stock_code code idc n_days res Hn Hnd Hc Hid Hex H.
  destruct (existsb_first_index _ _ Hex) as [row Hrow].
  assert (Hle : (Z.of_nat (length df) - 1 <? n_days) = false) by (apply Z.ltb_ge; lia).
  unfold query_stock_rank in H; rewrite Hc, Hid in H; simpl in H; rewrite Hrow, Hle in H.
  destruct (rank_loop _ _ _ _) as [e|r] eqn:Hl; simpl in H; [discriminate|].
  injection H as <-; exists r; split; [reflexivity|].
  rewrite py_slice_negative in Hl by exact Hn.
  assert (Hlen : length (labels df) = length df) by apply length_map.
  rewrite Hlen in Hl.
  apply (rank_loop_keys _ _ _ _ _ Hl); simpl.
  rewrite <- (firstn_skipn (length df - 1) (labels df)) in Hnd.
  apply NoDup_app_remove_r in Hnd.
  rewrite <- (firstn_skipn (Z.to_nat (- n_days - 1)) (firstn (length df - 1) (labels df))) in Hnd.
  now apply NoDup_app_remove_l in Hnd.
Qed.

Lemma X_query_negative_window_witness :
  NoDup (labels demo)
  /\ query_stock_rank demo (of_ascii "1") (-1) = Return (Some demo_ranks, None)
  /\ exists r, (Some demo_ranks, @None text) = (Some r, None) /\
       map fst r = skipn (Z.to_nat (- (-1) - 1)) (firstn (length demo - 1) (labels demo)).
Proof.
  assert (Hnd : NoDup (labels demo)).
  { simpl; repeat constructor; simpl; intuition discriminate. }
  assert (Hq : query_stock_rank demo (of_ascii "1") (-1) = Return (Some demo_ranks, None))
    by reflexivity.
  split; [exact Hnd|split; [exact Hq|]].
  exact (X_query_negative_window demo (of_ascii "1") 1 [Num 1; Num 2; Num 3] (-1) _
           ltac:(lia) Hnd eq_refl eq_refl eq_refl Hq).
Defined.

(** ** Ranks follow the values *)

Lemma filter_length_mono : forall (p q : Z -> bool) l,
  (forall x, p x = true -> q x = true) ->
  (length (filter p l) <= length (filter q l))%nat.
Proof.
  intros p q l Hpq; induction l as [|x l IH]; simpl; auto.
  destruct (p x) eqn:Hp; [rewrite (Hpq x Hp); simpl; lia|].
  destruct (q x); simpl; lia.
Qed.

Lemma filter_length_strict : forall (p q : Z -> bool) l y,
  (forall x, p x = true -> q x = true) -> In y l -> p y = false -> q y = true ->
  (length (filter p l) < length (filter q l))%nat.
Proof.
  intros p q l y Hpq; induction l as [|x l IH]; simpl; intros Hin Hpy Hqy; [contradiction|].
  destruct Hin as [->|Hin].
  - rewrite Hpy, Hqy; simpl.
    pose proof (filter_length_mono p q l Hpq); lia.
  - destruct (p x) eqn:Hp; [rewrite (Hpq x Hp); simpl; pose proof (IH Hin Hpy Hqy); lia|].
    destruct (q x); simpl; [pose proof (filter_length_mono p q l Hpq); lia|auto].
Qed.

Lemma count_greater_strict : forall col v1 v2,
  v1 < v2 -> In (Num v2) col -> (count_greater col v2 < count_greater col v1)%nat.
Proof.
  intros col v1 v2 Hlt Hin; unfold count_greater.
  apply (filter_length_strict _ _ _ v2).
  - intros x Hx; apply Z.ltb_lt in Hx; apply Z.ltb_lt; lia.
  - now apply nums_in.
  - apply Z.ltb_ge; lia.
  - apply Z.ltb_lt; lia.
Qed.

Lemma query_rank_count : forall df stock_code n_days r label k,
  query_stock_rank df stock_code n_days = Return (Some r, None) -> In (label, k) r ->
  exists code idc row col v,
    py_int stock_code = Some code /\ column df id_label = Return idc /\
    first_index (fun x => cell_eq_int x code) idc = Some row /\
    column df label = Return col /\ nth_error col row = Some (Num v) /\
    k = Z.of_nat (count_greater col v) + 1.
Proof.
  intros df stock_code n_days r label k H Hin.
  destruct (query_stock_rank_some _ _ _ _ _ H) as (code & idc & row & Hc & Hid & Hrow & _ & Hl & _).
  assert (He : rank_entry df row label k).
  { apply (rank_loop_entries _ _ _ _ _ Hl); [simpl; tauto|exact Hin]. }
  destruct (rank_entry_count _ _ _ _ He) as (col & v & Hcol & Hv & _ & ->).
  exists code, idc, row, col, v; repeat split; auto.
Qed.

(** X: two successful queries on the same frame rank their stocks in a
    common column consistently with the values of their target rows (the
    first rows whose [new_predict] equals each parsed code): equal values get
    equal ranks (ties share the better rank), and a strictly larger value
    gets a strictly smaller (better) rank. *)
Theorem X_rank_order : forall df code1 code2 n1 n2 r1 r2 label k1 k2,
  query_stock_rank df code1 n1 = Return (Some r1, None) ->
  query_stock_rank df code2 n2 = Return (Some r2, None) ->
  In (label, k1) r1 -> In (label, k2) r2 ->
  exists c1 c2 idc row1 row2 col v1 v2,
    py_int code1 = Some c1 /\ py_int code2 = Some c2 /\
    column df id_label = Return idc /\
    first_index (fun x => cell_eq_int x c1) idc = Some row1 /\
    first_index (fun x => cell_eq_int x c2) idc = Some row2 /\
    column df label = Return col /\
    nth_error col row1 = Some (Num v1) /\ nth_error col row2 = Some (Num v2) /\
    (v1 = v2 -> k1 = k2) /\ (v1 < v2 -> k2 < k1).
Proof.
  intros df code1 code2 n1 n2 r1 r2 label k1 k2 H1 H2 Hin1 Hin2.
  destruct (query_rank_count _ _ _ _ _ _ H1 Hin1)
    as (c1 & idc & row1 & col & v1 & Hc1 & Hid & Hr1 & Hcol & Hv1 & ->).
  destruct (query_rank_count _ _ _ _ _ _ H2 Hin2)
    as (c2 & idc' & row2 & col' & v2 & Hc2 & Hid' & Hr2 & Hcol' & Hv2 & ->).
  rewrite Hcol in Hcol'; injection Hcol' as <-.
  rewrite Hid in Hid'; injection Hid' as <-.
  exists c1, c2, idc, row1, row2, col, v1, v2; repeat split; auto.
  - intros ->; reflexivity.
  - intros Hlt.
    pose proof (count_greater_strict col v1 v2 Hlt (nth_error_In _ _ Hv2)); lia.
Qed.

Lemma X_rank_order_witness :
  query_stock_rank demo (of_ascii "1") 2 = Return (Some demo_ranks, None) /\
  query_stock_rank demo (of_ascii "2") 2 = Return (Some [(of_ascii "d1", 3); (of_ascii "d2", 1)], None) /\
  exists c1 c2 idc row1 row2 col v1 v2,
    py_int (of_ascii "1") = Some c1 /\ py_int (of_ascii "2") = Some c2 /\
    column demo id_label = Return idc /\
    first_index (fun x => cell_eq_int x c1) idc = Some row1 /\
    first_index (fun x => cell_eq_int x c2) idc = Some row2 /\
    column demo (of_ascii "d1") = Return col /\
    nth_error col row1 = Some (Num v1) /\ nth_error col row2 = Some (Num v2) /\
    (v1 = v2 -> 1 = 3) /\ (v1 < v2 -> 3 < 1).
Proof.
  assert (H1 : query_stock_rank demo (of_ascii "1") 2 = Return (Some demo_ranks, None)) by reflexivity.
  assert (H2 : query_stock_rank demo (of_ascii "2") 2
               = Return (Some [(of_ascii "d1", 3); (of_ascii "d2", 1)], None)) by reflexivity.
  split; [exact H1|split; [exact H2|]].
  exact (X_rank_order demo _ _ 2 2 _ _ (of_ascii "d1") 1 3 H1 H2 (or_introl eq_refl) (or_introl eq_refl)).
Defined.

(** ** The request handler *)

Ltac reach_query Hs Hn Hc Hv Hp Hl :=
  unfold index_post, int_of_field; rewrite Hs, Hn, Hc, Hv; cbn [negb]; rewrite Hp, Hl.

(** X: [index] touches the file system only for a form whose [n_days] is the
    text of an integer and whose [stock_code] is six digit characters; it
    then always runs [process_table] first, and [load_data] only when that
    returned a path. *)
Theorem X_handler_io_requires_valid_form : forall form w,
  fst (index_post form w) <> [] ->
  (exists s n code,
     form_get form (of_ascii "n_days") = Some s /\ py_int s = Some n /\
     form_get form (of_ascii "stock_code") = Some code /\
     py_isdigit code = true /\ length code = 6%nat)
  /\ (fst (index_post form w) = [ProcessTable] /\ process_result w = None
      \/ fst (index_post form w) = [ProcessTable; LoadData] /\ process_result w <> None).
Proof.
  intros form w H; unfold index_post, int_of_field in *.
  destruct (form_get form (of_ascii "n_days")) as [s|] eqn:Hs; [|simpl in H; congruence].
  destruct (py_int s) as [n|] eqn:Hn; [|simpl in H; congruence].
  destruct (form_get form (of_ascii "stock_code")) as [code|] eqn:Hc; [|simpl in H; congruence].
  destruct (py_isdigit code && (length code =? 6)%nat) eqn:Hv; cbn [negb] in *; [|simpl in H; congruence].
  apply andb_true_iff in Hv as [Hd Hl]; apply Nat.eqb_eq in Hl.
  split; [exists s, n, code; repeat split; auto|].
  destruct (process_result w) as [p|]; [right|left; auto].
  split; [|discriminate].
  destruct (load_result w); [reflexivity|].
  destruct (query_stock_rank _ _ _) as [e|[result [m|]]]; [reflexivity| |].
  - destruct m; [destruct result|]; reflexivity.
  - destruct result; reflexivity.
Qed.

Lemma X_handler_io_requires_valid_form_witness :
  fst (index_post [(of_ascii "stock_code", of_ascii "000001"); (of_ascii "n_days", of_ascii "2")]
         {| process_result := Some (of_ascii "p.csv"); load_result := Return demo |}) <> [] /\
  fst (index_post [(of_ascii "stock_code", of_ascii "000001"); (of_ascii "n_days", of_ascii "2")]
         {| process_result := Some (of_ascii "p.csv"); load_result := Return demo |})
    = [ProcessTable; LoadData].
Proof.
  assert (H : fst (index_post [(of_ascii "stock_code", of_ascii "000001"); (of_ascii "n_days", of_ascii "2")]
         {| process_result := Some (of_ascii "p.csv"); load_result := Return demo |}) <> [])
    by (vm_compute; discriminate).
  split; [exact H|].
  destruct (X_handler_io_requires_valid_form _ _ H) as [_ [[_ Hp]|[He _]]]; [discriminate|exact He].
Defined.

(** X: with [n_days] converted but no [stock_code] field, [index] raises
    (the [.isdigit()] call on [None]) before any file operation. *)
Theorem X_handler_missing_code : forall form w s n,
  form_get form (of_ascii "n_days") = Some s -> py_int s = Some n ->
  form_get form (of_ascii "stock_code") = None ->
  index_post form w = ([], Raise AttributeError).
Proof.
  intros form w s n Hs Hn Hc; unfold index_post, int_of_field; now rewrite Hs, Hn, Hc.
Qed.

Lemma X_handler_missing_code_witness :
  index_post [(of_ascii "n_days", of_ascii "3")] broken_world = ([], Raise AttributeError).
Proof.
  exact (X_handler_missing_code [(of_ascii "n_days", of_ascii "3")] broken_world (of_ascii "3") 3
           eq_refl eq_refl eq_refl).
Defined.



(** X: when the window exceeds the frame, the error page's [max_days] is the
    same number as the one in the message, [len(df.columns) - 1]. *)
Theorem X_handler_window_exceeds : forall form w s n code c idc p df,
  form_get form (of_ascii "n_days") = Some s -> py_int s = Some n ->
  form_get form (of_ascii "stock_code") = Some code ->
  py_isdigit code && (length code =? 6)%nat = true -> py_int code = Some c ->
  process_result w = Some p -> load_result w = Return df ->
  column df id_label = Return idc -> existsb (fun x => cell_eq_int x c) idc = true ->
  Z.of_nat (length df) - 1 < n ->
  index_post form w = ([ProcessTable; LoadData],
                       Return (IndexPage (Some (msg_exceeds (Z.of_nat (length df) - 1)))
                                         (Some (Z.of_nat (length df) - 1)))).
Proof.
  intros form w s n code c idc p df Hs Hn Hc Hv Hi Hp Hl Hid Hex Hlt.
  reach_query Hs Hn Hc Hv Hp Hl.
  destruct (existsb_first_index _ _ Hex) as [row Hrow].
  unfold query_stock_rank; rewrite Hi, Hid; simpl; rewrite Hrow.
  rewrite (proj2 (Z.ltb_lt _ _) Hlt).
  unfold msg_exceeds; reflexivity.
Qed.

Lemma X_handler_window_exceeds_witness :
  index_post [(of_ascii "stock_code", of_ascii "000001"); (of_ascii "n_days", of_ascii "9")]
    {| process_result := Some (of_ascii "p.csv"); load_result := Return demo |}
  = ([ProcessTable; LoadData], Return (IndexPage (Some (msg_exceeds 2)) (Some 2))).
Proof.
  exact (X_handler_window_exceeds
           [(of_ascii "stock_code", of_ascii "000001"); (of_ascii "n_days", of_ascii "9")] {| process_result := Some (of_ascii "p.csv"); load_result := Return demo |}
           (of_ascii "9") 9 (of_ascii "000001") 1 [Num 1; Num 2; Num 3] (of_ascii "p.csv") demo
           eq_refl eq_refl eq_refl eq_refl eq_refl eq_refl eq_refl eq_refl eq_refl ltac:(simpl; lia)).
Defined.

(** X: a result page for a window [0 < n_days <= len(df.columns) - 1] comes
    after both file operations, echoes the submitted code, charts one rank
    per column of [df.columns[-n_days-1:-1]] in order, and its text is
    [generate_rank_text] of that series. *)
Theorem X_handler_result_page : forall form w ev s n code df code' r t,
  form_get form (of_ascii "n_days") = Some s -> py_int s = Some n ->
  form_get form (of_ascii "stock_code") = Some code ->
  load_result w = Return df -> NoDup (labels df) ->
  0 < n <= Z.of_nat (length df) - 1 ->
  index_post form w = (ev, Return (ResultPage code' r t)) ->
  ev = [ProcessTable; LoadData] /\ code' = code /\ t = generate_rank_text r /\
  map fst r = firstn (Z.to_nat n) (skipn (length df - 1 - Z.to_nat n) (labels df)).
Proof.
  intros form w ev s n code df code' r t Hs Hn Hc Hl Hnd Hw H.
  unfold index_post, int_of_field in H; rewrite Hs, Hn, Hc in H.
  destruct (negb _); [discriminate|].
  destruct (process_result w); [|discriminate].
  rewrite Hl in H.
  destruct (query_stock_rank df code n) as [e|[result m]] eqn:Hq; [discriminate|].
  assert (Hm : result = Some r /\ ev = [ProcessTable; LoadData] /\ code' = code
               /\ t = generate_rank_text r).
  { destruct m as [[|x m']|]; [|discriminate|];
      (destruct result as [r'|]; [injection H as <- <- <- <-|discriminate]);
      repeat split; reflexivity. }
  destruct Hm as (-> & -> & -> & ->).
  repeat split.
  destruct (query_stock_rank_some _ _ _ _ _ Hq) as (c & idc & row & _ & _ & _ & _ & Hloop & _).
  assert (Hlen : length (labels df) = length df) by apply length_map.
  rewrite py_slice_recent in Hloop by (rewrite Hlen; lia).
  rewrite Hlen in Hloop.
  apply (rank_loop_keys _ _ _ _ _ Hloop); simpl.
  rewrite <- (firstn_skipn (length df - 1 - Z.to_nat n) (labels df)) in Hnd.
  apply NoDup_app_remove_l in Hnd.
  rewrite <- (firstn_skipn (Z.to_nat n) (skipn _ (labels df))) in Hnd.
  now apply NoDup_app_remove_r in Hnd.
Qed.

Lemma X_handler_result_page_witness :
  index_post form_demo world_demo
  = ([ProcessTable; LoadData], Return (ResultPage (of_ascii "000001") demo_ranks (generate_rank_text demo_ranks)))
  /\ map fst demo_ranks = firstn 2 (skipn (length demo - 1 - 2) (labels demo)).
Proof.
  assert (H : index_post form_demo world_demo
    = ([ProcessTable; LoadData], Return (ResultPage (of_ascii "000001") demo_ranks (generate_rank_text demo_ranks))))
    by reflexivity.
  assert (Hnd : NoDup (labels demo)).
  { simpl; repeat constructor; simpl; intuition discriminate. }
  split; [exact H|].
  exact (proj2 (proj2 (proj2 (X_handler_result_page form_demo world_demo _ (of_ascii "2") 2
           (of_ascii "000001") demo _ _ _ eq_refl eq_refl eq_refl eq_refl Hnd ltac:(simpl; lia) H)))).
Defined.

(** ** The processed file's path *)

Lemma rfind_go_spec : forall c p i best,
  rfind_go c i p best = best \/
  exists j, rfind_go c i p best = i + Z.of_nat j /\ nth_error p j = Some c.
Proof.
  intros c; induction p as [|x p IH]; simpl; intros i best; [auto|].
  destruct (IH (i + 1) (if x =? c then i else best)) as [H|(j & H & Hj)].
  - rewrite H; destruct (x =? c) eqn:E; [right; exists O; apply Z.eqb_eq in E; subst; split; [lia|reflexivity]|auto].
  - right; exists (S j); split; [rewrite H; lia|exact Hj].
Qed.

Lemma rfind_go_lower : forall c p i best,
  -1 <= best -> 0 <= i -> -1 <= rfind_go c i p best.
Proof.
  intros c; induction p as [|x p IH]; simpl; intros i best Hb Hi; [exact Hb|].
  apply IH; [destruct (x =? c); lia|lia].
Qed.

Lemma rfind_spec : forall c p,
  rfind c p = -1 \/ exists j, rfind c p = Z.of_nat j /\ nth_error p j = Some c.
Proof.
  intros c p; unfold rfind; destruct (rfind_go_spec c p 0 (-1)) as [H|(j & H & Hj)]; [now left|right; exists j; split; [lia|exact Hj]].
Qed.

Lemma rfind_lower : forall c p, -1 <= rfind c p.
Proof. intros c p; apply rfind_go_lower; lia. Qed.

Lemma skipn_nth_error : forall {A} (l : list A) j x,
  nth_error l j = Some x -> skipn j l = x :: skipn (S j) l.
Proof.
  intros A l; induction l as [|y l IH]; intros [|j] x H; simpl in *; try discriminate.
  - now injection H as ->.
  - now apply IH.
Qed.

Lemma splitext_parts : forall sep altsep p,
  exists ext, p = fst (py_splitext sep altsep p) ++ ext /\ (ext = [] \/ exists r, ext = 46 :: r).
Proof.
  intros sep altsep p; unfold py_splitext.
  set (si := match altsep with Some a => Z.max (rfind sep p) (rfind a p) | None => rfind sep p end).
  assert (Hsi : -1 <= si).
  { unfold si; destruct altsep; pose proof (rfind_lower sep p); [lia|lia]. }
  destruct (si <? rfind 46 p) eqn:Hlt; [|exists []; rewrite app_nil_r; auto].
  apply Z.ltb_lt in Hlt.
  destruct (existsb _ _); [|exists []; rewrite app_nil_r; auto].
  simpl; exists (skipn (Z.to_nat (rfind 46 p)) p); split; [now rewrite firstn_skipn|right].
  destruct (rfind_spec 46 p) as [H|(j & H & Hj)]; [lia|].
  rewrite H, Nat2Z.id; exists (skipn (S j) p); now apply skipn_nth_error.
Qed.

(** X: the path [process_table] writes to is the input path with its
    extension (empty, or from the last dot of the last component on)
    replaced by ["_processed.csv"]; in particular it is never the input path
    itself, so the source file is not overwritten. Holds for both the POSIX
    and the Windows separators. *)
Theorem X_processed_path : forall sep altsep p,
  exists root ext,
    p = root ++ ext /\ (ext = [] \/ exists r, ext = 46 :: r) /\
    processed_path sep altsep p = root ++ of_ascii "_processed.csv" /\
    processed_path sep altsep p <> p.
Proof.
  intros sep altsep p.
  destruct (splitext_parts sep altsep p) as (ext & Hp & Hext).
  exists (fst (py_splitext sep altsep p)), ext; repeat split; auto.
  unfold processed_path; intros Heq.
  rewrite Hp in Heq at 2; apply app_inv_head in Heq.
  destruct Hext as [He|(r & He)]; subst ext; simpl in Heq; discriminate.
Qed.

(** ** Normalised identifiers and the handler's check *)

Lemma zfill_ascii_digits : forall s,
  forallb ascii_digit s = true -> (1 <= length s <= 6)%nat ->
  re_match_digits16 s = true /\ py_zfill 6 s = repeat 48 (6 - length s) ++ s.
Proof.
  intros s Hd Hl; split.
  - unfold re_match_digits16, digits16.
    assert (Hdec : forallb is_decimal s = true).
    { rewrite forallb_forall in *; intros c Hc; apply ascii_digit_decimal; auto. }
    rewrite Hdec, (proj2 (Nat.leb_le 1 _)), (proj2 (Nat.leb_le _ 6)) by lia; reflexivity.
  - unfold py_zfill.
    destruct (6 <=? length s)%nat eqn:E.
    + apply Nat.leb_le in E; replace (6 - length s)%nat with O by lia; reflexivity.
    + destruct s as [|c r]; [simpl in Hl; lia|].
      simpl in Hd; apply andb_prop in Hd as [Hc _].
      unfold ascii_digit in Hc; apply andb_prop in Hc as [Hc1 Hc2].
      apply Z.leb_le in Hc1; apply Z.leb_le in Hc2.
      rewrite (proj2 (Z.eqb_neq c 43)), (proj2 (Z.eqb_neq c 45)) by lia; reflexivity.
Qed.

Lemma ascii_isdigit : forall l, l <> [] -> forallb ascii_digit l = true -> py_isdigit l = true.
Proof.
  intros [|c r] Hne H; [congruence|]; unfold py_isdigit.
  apply forallb_forall; intros x Hx; rewrite forallb_forall in H.
  unfold is_digit_char; rewrite ascii_digit_decimal; auto.
Qed.

(** X: a cell that is 1 to 6 ASCII digits once its suffixes are removed
    becomes a code the handler accepts (six digit characters), and [int()]
    reads it as the same number as the unpadded digits: normalising an
    identifier does not change which stock it names. *)
Theorem X_process_cell_code : forall v,
  forallb ascii_digit (strip_suffixes v) = true -> (1 <= length (strip_suffixes v) <= 6)%nat ->
  py_isdigit (process_cell v) && (length (process_cell v) =? 6)%nat = true /\
  py_int (process_cell v) = py_int (strip_suffixes v).
Proof.
  intros v Hd Hl.
  destruct (zfill_ascii_digits _ Hd Hl) as [Hm Hz].
  assert (Hp : process_cell v = repeat 48 (6 - length (strip_suffixes v)) ++ strip_suffixes v).
  { unfold process_cell; now rewrite Hm. }
  assert (Hz0 : forallb ascii_digit (repeat 48 (6 - length (strip_suffixes v))) = true).
  { apply forallb_forall; intros x Hx; apply repeat_spec in Hx; now subst. }
  rewrite Hp; split.
  - rewrite length_app, repeat_length.
    replace (6 - length (strip_suffixes v) + length (strip_suffixes v))%nat with 6%nat by lia.
    rewrite Nat.eqb_refl, andb_true_r.
    apply ascii_isdigit; [|now rewrite forallb_app, Hz0, Hd].
    destruct (strip_suffixes v); [simpl in Hl; lia|].
    intros E; apply (f_equal (@length Z)) in E; rewrite length_app in E; simpl in E; lia.
  - apply py_int_zero_padded; [exact Hd| |lia].
    destruct (strip_suffixes v); [simpl in Hl; lia|discriminate].
Qed.

Lemma X_process_cell_code_witness :
  forallb ascii_digit (strip_suffixes (of_ascii "1.SH")) = true /\
  (1 <= length (strip_suffixes (of_ascii "1.SH")) <= 6)%nat /\
  process_cell (of_ascii "1.SH") = of_ascii "000001" /\
  py_int (process_cell (of_ascii "1.SH")) = py_int (strip_suffixes (of_ascii "1.SH")).
Proof.
  assert (Hd : forallb ascii_digit (strip_suffixes (of_ascii "1.SH")) = true) by reflexivity.
  assert (Hl : (1 <= length (strip_suffixes (of_ascii "1.SH")) <= 6)%nat) by (vm_compute; lia).
  split; [exact Hd|split; [exact Hl|split; [reflexivity|]]].
  exact (proj2 (X_process_cell_code _ Hd Hl)).
Defined.

(** ** Trimmed column labels *)

Lemma py_strip_ends : forall s,
  (forall c r, py_strip s = c :: r -> is_space c = false) /\
  (forall c r, rev (py_strip s) = c :: r -> is_space c = false).
Proof.
  intros s; unfold py_strip; split.
  - intros c r H.
    destruct (drop_space_suffix (rev (drop_space s))) as [p Hp].
    assert (Ht : drop_space s = rev (drop_space (rev (drop_space s))) ++ rev p).
    { rewrite <- rev_app_distr, <- Hp, rev_involutive; reflexivity. }
    rewrite H in Ht; simpl in Ht.
    exact (drop_space_head s c (r ++ rev p) Ht).
  - intros c r H; rewrite rev_involutive in H.
    exact (drop_space_head _ c r H).
Qed.

(** X: every label [process_header] returns starts and ends with a
    character that is not white space (or is empty), whatever the input
    labels and wherever ["00:00:00"] occurred in them. *)
Theorem X_header_trimmed : forall header label,
  In label (process_header header) ->
  (forall c r, label = c :: r -> is_space c = false) /\
  (forall c r, rev label = c :: r -> is_space c = false).
Proof.
  intros header label H; unfold process_header in H.
  apply in_map_iff in H as (col & <- & _).
  apply py_strip_ends.
Qed.

Lemma X_header_trimmed_witness :
  process_header [of_ascii " 2024-01-02 00:00:00 "] = [of_ascii "2024-01-02"] /\
  (forall c r, of_ascii "2024-01-02" = c :: r -> is_space c = false) /\
  (forall c r, rev (of_ascii "2024-01-02") = c :: r -> is_space c = false).
Proof.
  assert (H : process_header [of_ascii " 2024-01-02 00:00:00 "] = [of_ascii "2024-01-02"]) by reflexivity.
  split; [exact H|].
  apply (X_header_trimmed [of_ascii " 2024-01-02 00:00:00 "]); rewrite H; now left.
Defined.

(** ** A trailing newline *)

(** X: since [$] also matches before a final newline, a cell that is 1 to 6
    ASCII digits followed by a newline (once its suffixes are removed) is
    zero-filled with the newline counted in the width: only to five digits. *)
Theorem X_process_cell_newline : forall v ds,
  strip_suffixes v = ds ++ [10] ->
  forallb ascii_digit ds = true -> (1 <= length ds <= 6)%nat ->
  process_cell v = repeat 48 (5 - length ds) ++ ds ++ [10].
Proof.
  intros v ds Hs Hd Hl; unfold process_cell; rewrite Hs.
  assert (Hm : re_match_digits16 (ds ++ [10]) = true).
  { assert (H16 : digits16 ds = true).
    { unfold digits16.
      assert (Hdec : forallb is_decimal ds = true).
      { rewrite forallb_forall in *; intros c Hc; apply ascii_digit_decimal; auto. }
      rewrite Hdec, (proj2 (Nat.leb_le 1 _)), (proj2 (Nat.leb_le _ 6)) by lia; reflexivity. }
    unfold re_match_digits16; rewrite rev_app_distr; cbn [rev app]; rewrite rev_involutive, H16.
    apply orb_true_r. }
  rewrite Hm; unfold py_zfill; rewrite length_app; simpl (length [10]).
  destruct (6 <=? length ds + 1)%nat eqn:E.
  - apply Nat.leb_le in E; replace (5 - length ds)%nat with O by lia; reflexivity.
  - apply Nat.leb_gt in E.
    destruct ds as [|c r]; [simpl in Hl; lia|].
    simpl in Hd; apply andb_prop in Hd as [Hc _].
    unfold ascii_digit in Hc; apply andb_prop in Hc as [Hc1 Hc2].
    apply Z.leb_le in Hc1; apply Z.leb_le in Hc2.
    change ((c :: r) ++ [10]) with (c :: (r ++ [10])) at 1; cbv iota beta.
    rewrite (proj2 (Z.eqb_neq c 43)), (proj2 (Z.eqb_neq c 45)) by lia; cbn [orb].
    replace (6 - (length (c :: r) + 1))%nat with (5 - length (c :: r))%nat by lia; reflexivity.
Qed.

Lemma X_process_cell_newline_witness :
  process_cell (of_ascii "12.SH" ++ [10]) = of_ascii "00012" ++ [10].
Proof.
  exact (X_process_cell_newline (of_ascii "12.SH" ++ [10]) (of_ascii "12") eq_refl eq_refl
           ltac:(simpl; lia)).
Defined.
